(** * The Ollama client facade of personality-ai, embedded in Rocq

    This development follows [src/core/ollama_client.py] and the smoke-test
    script [test_ollama.py].  The facade is a thin layer of
    [try]/[except] blocks around four remote operations ([list], [chat],
    [generate], [pull]); what there is to verify is which request each method
    issues, which value it returns, what it writes to the logger and that no
    exception leaves it.

    The embedding therefore has three layers:
    - a fragment of Python's dynamic values and of the built-ins the module
      applies to them ([dict.get], subscription, [hasattr], [getattr],
      iteration, truthiness of strings);
    - a state-and-exception monad [py] for the interpreter: the state holds
      the requests sent to the server so far, the records handed to the
      logger, the object allocator and the module global [_ollama_client];
    - the module itself, one definition per Python function, in the order of
      the source. *)

From Stdlib Require Import Ascii String ZArith QArith List Bool Lia.
From stdpp Require Import base option gmap strings.
Import ListNotations.

Set Warnings "-register-all".
Close Scope Q_scope.
Open Scope string_scope.
Open Scope list_scope.

(** ** Python values *)

(** Exceptions deriving from [Exception].  [ResponseError] is the structured
    error of the client library, with its [error] and [status_code]
    attributes; [OtherException] stands for every class the module does not
    name (connection failures, timeouts, validation errors, ...). *)
Inductive exn : Type :=
| ResponseError (error : string) (status_code : Z)
| AttributeError (attribute : string)
| KeyError (key : string)
| TypeError (operation : string)
| ImportError (name : string)
| OtherException (class message : string).

Inductive result (A : Type) : Type :=
| Return (a : A)
| Raise (e : exn).
Arguments Return {A} a.
Arguments Raise {A} e.

(** Dynamic values.  A [VDict] is a mapping with string keys in insertion
    order.  A [VObj] is an object that has the attributes listed and nothing
    else, neither [get] nor subscription (a namespace, a plain mock, an
    entry as far as [hasattr] and [getattr] see it).  A response model of the
    client library answers [get] and subscription by field name: where the
    module uses one as a mapping, it is written as the [VDict] of its
    fields.  A [VStr] holds the UTF-8 bytes of the text. *)
Inductive pyval : Type :=
| VNone
| VBool (b : bool)
| VInt (n : Z)
| VFloat (q : Q)
| VStr (s : string)
| VList (items : list pyval)
| VDict (entries : list (string * pyval))
| VObj (attributes : list (string * pyval)).

Fixpoint assoc (k : string) (kvs : list (string * pyval)) : option pyval :=
  match kvs with
  | [] => None
  | (k', v) :: rest => if String.eqb k k' then Some v else assoc k rest
  end.

(** [o.get(key, dflt)]: defined on mappings only. *)
Definition py_get (o : pyval) (key : string) (dflt : pyval) : result pyval :=
  match o with
  | VDict d => Return (default dflt (assoc key d))
  | _ => Raise (AttributeError "get")
  end.

(** [o[key]] with a string key: a mapping answers or raises [KeyError];
    nothing else accepts a string subscript. *)
Definition py_getitem (o : pyval) (key : string) : result pyval :=
  match o with
  | VDict d =>
      match assoc key d with
      | Some v => Return v
      | None => Raise (KeyError key)
      end
  | _ => Raise (TypeError "subscript")
  end.

(** [hasattr(o, name)] for a data attribute [name]: only objects carry
    them (a [dict] has keys, not attributes). *)
Definition py_hasattr (o : pyval) (name : string) : bool :=
  match o with
  | VObj attrs =>
      match assoc name attrs with
      | Some _ => true
      | None => false
      end
  | _ => false
  end.

(** [o.name] *)
Definition py_getattr (o : pyval) (name : string) : result pyval :=
  match o with
  | VObj attrs =>
      match assoc name attrs with
      | Some v => Return v
      | None => Raise (AttributeError name)
      end
  | _ => Raise (AttributeError name)
  end.

(** [getattr(o, name, dflt)] never raises. *)
Definition py_getattr_default (o : pyval) (name : string) (dflt : pyval) : pyval :=
  match o with
  | VObj attrs => default dflt (assoc name attrs)
  | _ => dflt
  end.

(** A byte that continues a character of a UTF-8 text: [10xxxxxx]. *)
Definition continuation (c : ascii) : bool :=
  match c with
  | Ascii _ _ _ _ _ _ b6 b7 => b7 && negb b6
  end.

(** Does the text open in the middle of a character? *)
Definition continues (s : string) : bool :=
  match s with
  | String c _ => continuation c
  | EmptyString => false
  end.

(** The byte [c] put in front of the characters [tail]: part of the first
    of them when that one is [open], a character of its own otherwise. *)
Definition put_byte (c : ascii) (open : bool) (tail : list pyval) : list pyval :=
  match open, tail with
  | true, VStr first :: others => VStr (String c first) :: others
  | _, _ => VStr (String c EmptyString) :: tail
  end.

(** The characters of a string, each a string of its own: a byte opens a
    character unless it continues one. *)
Fixpoint chars (s : string) : list pyval :=
  match s with
  | EmptyString => []
  | String c rest => put_byte c (continues rest) (chars rest)
  end.

(** The items a [for] loop or a comprehension visits. *)
Definition py_iter (o : pyval) : result (list pyval) :=
  match o with
  | VList items => Return items
  | VDict d => Return (map (fun kv => VStr (fst kv)) d)
  | VStr s => Return (chars s)
  | _ => Raise (TypeError "iter")
  end.

(** [len(o)] *)
Definition py_len (o : pyval) : result Z :=
  match o with
  | VList items => Return (Z.of_nat (length items))
  | VDict d => Return (Z.of_nat (length d))
  | VStr s => Return (Z.of_nat (length (chars s)))
  | _ => Raise (TypeError "len")
  end.

(** [s == v] for a string [s]: a string equals strings only. *)
Definition py_eq_str (s : string) (v : pyval) : bool :=
  match v with
  | VStr t => String.eqb s t
  | _ => false
  end.

(** [s in names] on a list. *)
Definition py_in (s : string) (names : list pyval) : bool :=
  existsb (py_eq_str s) names.

(** [a or b] where [a] is an optional string: [None] and the empty string
    are both falsy. *)
Definition py_or (a : option string) (b : string) : string :=
  match a with
  | Some s => if String.eqb s "" then b else s
  | None => b
  end.

(** ** Messages, requests and log records *)

(** A chat message, the mapping [{'role': ..., 'content': ...}]. *)
Record Message : Type := mkMessage { role : string; content : string }.

(** Who carries a request: a [Client] bound to a host, or the functions of
    the [ollama] module itself. *)
Inductive carrier : Type :=
| ClientAt (host : string)
| ModuleLevel.

(** One request to the client library, with the keyword arguments as the
    source writes them.  [options] is absent when the call passes none. *)
Inductive call : Type :=
| CallList (via : carrier)
| CallChat (via : carrier) (model : string) (messages : list Message)
    (options : option (list (string * pyval)))
| CallGenerate (via : carrier) (model : string) (prompt : string)
| CallPull (via : carrier) (model : string).

(** An f-string: literal text and interpolated expressions, in order.  The
    rendering of an interpolated value is Python's, and is left to it. *)
Inductive fragment : Type :=
| Lit (text : string)
| FStr (s : string)
| FInt (n : Z)
| FExn (e : exn).

Inductive level : Type := INFO | ERROR.

Record log_record : Type := mkLog { severity : level; message : list fragment }.

(** ** The interpreter state *)

(** An [OllamaClient] instance.  [oid] is the identity of the object;
    [self.client] is [Client(host=self.host)] and is determined by [host]. *)
Record OllamaClient : Type := mkClient {
  oid : nat;
  host : string;
  model_name : string
}.

Record state : Type := mkState {
  calls : list call;                      (* requests issued so far, oldest first *)
  logged : list log_record;               (* records handed to [logger] *)
  next_oid : nat;                         (* objects allocated so far *)
  _ollama_client : option OllamaClient    (* the module global *)
}.

Definition set_calls (c : list call) (st : state) : state :=
  mkState c (logged st) (next_oid st) (_ollama_client st).
Definition set_logged (l : list log_record) (st : state) : state :=
  mkState (calls st) l (next_oid st) (_ollama_client st).
Definition set_next_oid (n : nat) (st : state) : state :=
  mkState (calls st) (logged st) n (_ollama_client st).
Definition set_ollama_client (g : option OllamaClient) (st : state) : state :=
  mkState (calls st) (logged st) (next_oid st) g.

(** The state a freshly imported module starts from. *)
Definition initial : state := mkState [] [] 0 None.

(** ** The monad of Python computations *)

Definition py (A : Type) : Type := state -> result A * state.

#[global] Instance py_ret : MRet py := fun A a st => (Return a, st).

#[global] Instance py_bind : MBind py := fun A B k m st =>
  match m st with
  | (Return a, st') => k a st'
  | (Raise e, st') => (Raise e, st')
  end.

(** [raise e] *)
Definition throw {A} (e : exn) : py A := fun st => (Raise e, st).

(** A pure operation that may raise. *)
Definition lift {A} (r : result A) : py A := fun st => (r, st).

(** [try: body  except Exception as e: handler e] *)
Definition try_except {A} (body : py A) (handler : exn -> py A) : py A :=
  fun st =>
    match body st with
    | (Return a, st') => (Return a, st')
    | (Raise e, st') => handler e st'
    end.

Definition logger_info (msg : list fragment) : py unit :=
  fun st => (Return tt, set_logged (logged st ++ [mkLog INFO msg]) st).

Definition logger_error (msg : list fragment) : py unit :=
  fun st => (Return tt, set_logged (logged st ++ [mkLog ERROR msg]) st).

(** [[f x for x in xs]] *)
Fixpoint comprehension {A B} (f : A -> py B) (xs : list A) : py (list B) :=
  match xs with
  | [] => mret []
  | x :: rest => y ← f x; ys ← comprehension f rest; mret (y :: ys)
  end.

(** ** The module [src/core/ollama_client.py] *)

Section ollama_client.

(** [os.environ] once [load_dotenv()] has run; the module only reads it. *)
Variable environ : gmap string string.

(** The server behind the client library: its answer to the last request
    of a history of requests, a value or an exception. *)
Variable server : list call -> result pyval.

Definition os_getenv (name dflt : string) : string :=
  default dflt (environ !! name).

(** Issue a request and wait for its outcome. *)
Definition remote (c : call) : py pyval :=
  fun st => let history := calls st ++ [c] in (server history, set_calls history st).

Definition new_object : py nat :=
  fun st => (Return (next_oid st), set_next_oid (S (next_oid st)) st).

(** [OllamaClient.__init__(self, host=None, model_name=None)].  Building
    [Client(host=self.host)] sends nothing; the instance keeps the host. *)
Definition OllamaClient_init (host' model_name' : option string) : py OllamaClient :=
  id ← new_object;
  let self :=
    mkClient id
      (py_or host' (os_getenv "OLLAMA_HOST" "http://localhost:11434"))
      (py_or model_name' (os_getenv "MODEL_NAME" "gemma3:27b")) in
  logger_info [Lit "初始化 Ollama 客戶端: "; FStr (host self);
               Lit ", 模型: "; FStr (model_name self)];;
  mret self.

(** [self.client] *)
Definition client (self : OllamaClient) : carrier := ClientAt (host self).

(** [OllamaClient.test_connection(self)] *)
Definition test_connection (self : OllamaClient) : py bool :=
  try_except
    (models ← remote (CallList (client self));
     found ← lift (py_get models "models" (VList []));
     model_count ← lift (py_len found);
     logger_info [Lit "成功連接到 Ollama，可用模型數量: "; FInt model_count];;
     mret true)
    (fun e =>
       logger_error [Lit "連接 Ollama 失敗: "; FExn e];;
       mret false).

(** The body of the loop of [list_models]: what is appended to
    [processed_models] for one entry. *)
Definition processed (model : pyval) : py pyval :=
  if py_hasattr model "model" then
    name ← lift (py_getattr model "model");
    mret (VDict [("name", name);
                 ("size", py_getattr_default model "size" (VInt 0));
                 ("modified_at", py_getattr_default model "modified_at" VNone);
                 ("digest", py_getattr_default model "digest" (VStr ""));
                 ("details", py_getattr_default model "details" (VDict []))])
  else mret model.

Fixpoint process_models (models processed_models : list pyval) : py (list pyval) :=
  match models with
  | [] => mret processed_models
  | model :: rest =>
      item ← processed model;
      process_models rest (processed_models ++ [item])
  end.

(** [OllamaClient.list_models(self)] *)
Definition list_models (self : OllamaClient) : py (list pyval) :=
  try_except
    (response ← remote (CallList (client self));
     models ← lift (py_get response "models" (VList []));
     entries ← lift (py_iter models);
     process_models entries [])
    (fun e =>
       logger_error [Lit "獲取模型列表失敗: "; FExn e];;
       mret []).

(** Lines 106-119: the message array of [generate_response]. *)
Definition build_messages (prompt : string) (system_prompt : option string) : list Message :=
  let messages := [] in
  let messages :=
    match system_prompt with
    | Some s => if String.eqb s "" then messages else messages ++ [mkMessage "system" s]
    | None => messages
    end in
  messages ++ [mkMessage "user" prompt].

(** [response['message']['content']] *)
Definition message_content (response : pyval) : py pyval :=
  message ← lift (py_getitem response "message");
  lift (py_getitem message "content").

(** [OllamaClient.generate_response(self, prompt, model=None,
    system_prompt=None, temperature=0.7, max_tokens=1000)]; the defaults
    are [default_temperature] and [default_max_tokens]. *)
Definition default_temperature : Q := 0.7.
Definition default_max_tokens : Z := 1000.

Definition generate_response (self : OllamaClient) (prompt : string)
    (model system_prompt : option string) (temperature : Q) (max_tokens : Z) : py pyval :=
  let model := py_or model (model_name self) in
  try_except
    (let messages := build_messages prompt system_prompt in
     response ← remote (CallChat (client self) model messages
                          (Some [("temperature", VFloat temperature);
                                 ("num_predict", VInt max_tokens)]));
     message_content response)
    (fun e =>
       match e with
       | ResponseError error status_code =>
           logger_error [Lit "Ollama 回應錯誤: "; FStr error;
                         Lit " (狀態碼: "; FInt status_code; Lit ")"];;
           mret VNone
       | _ =>
           logger_error [Lit "生成回應失敗: "; FExn e];;
           mret VNone
       end).

(** [OllamaClient.generate_with_personality(self, prompt,
    personality_prompt, model=None)] *)
Definition generate_with_personality (self : OllamaClient) (prompt : string)
    (personality_prompt : string) (model : option string) : py pyval :=
  generate_response self prompt model (Some personality_prompt) 0.8 default_max_tokens.

(** [OllamaClient.generate_simple(self, prompt, model=None)] *)
Definition generate_simple (self : OllamaClient) (prompt : string)
    (model : option string) : py pyval :=
  let model := py_or model (model_name self) in
  try_except
    (response ← remote (CallGenerate (client self) model prompt);
     lift (py_getitem response "response"))
    (fun e =>
       match e with
       | ResponseError error status_code =>
           logger_error [Lit "Ollama 回應錯誤: "; FStr error;
                         Lit " (狀態碼: "; FInt status_code; Lit ")"];;
           mret VNone
       | _ =>
           logger_error [Lit "生成回應失敗: "; FExn e];;
           mret VNone
       end).

(** [OllamaClient.chat_with_history(self, messages, model=None,
    temperature=0.7)] *)
Definition chat_with_history (self : OllamaClient) (messages : list Message)
    (model : option string) (temperature : Q) : py pyval :=
  let model := py_or model (model_name self) in
  try_except
    (response ← remote (CallChat (client self) model messages
                          (Some [("temperature", VFloat temperature)]));
     message_content response)
    (fun e =>
       match e with
       | ResponseError error _ =>
           logger_error [Lit "對話生成錯誤: "; FStr error];;
           mret VNone
       | _ =>
           logger_error [Lit "對話生成失敗: "; FExn e];;
           mret VNone
       end).

(** [OllamaClient.pull_model_if_needed(self, model)] *)
Definition pull_model_if_needed (self : OllamaClient) (model : string) : py bool :=
  try_except
    (models ← list_models self;
     model_names ← comprehension (fun m => lift (py_get m "name" (VStr ""))) models;
     if py_in model model_names then
       logger_info [Lit "模型 "; FStr model; Lit " 已存在"];;
       mret true
     else
       logger_info [Lit "正在下載模型 "; FStr model; Lit "..."];;
       remote (CallPull (client self) model);;
       logger_info [Lit "模型 "; FStr model; Lit " 下載完成"];;
       mret true)
    (fun e =>
       logger_error [Lit "下載模型失敗: "; FExn e];;
       mret false).

(** [simple_chat(message, model=None)], which goes through the [ollama]
    module and not through a facade instance. *)
Definition simple_chat (message : string) (model : option string) : py pyval :=
  let model :=
    match model with
    | None => os_getenv "MODEL_NAME" "gemma3:1b"
    | Some m => m
    end in
  try_except
    (response ← remote (CallChat ModuleLevel model [mkMessage "user" message] None);
     message_content response)
    (fun e =>
       logger_error [Lit "簡單對話失敗: "; FExn e];;
       mret VNone).

(** Reading and assigning the module global [_ollama_client]. *)
Definition read_global : py (option OllamaClient) :=
  fun st => (Return (_ollama_client st), st).
Definition assign_global (instance : OllamaClient) : py unit :=
  fun st => (Return tt, set_ollama_client (Some instance) st).

(** [get_ollama_client()] *)
Definition get_ollama_client : py OllamaClient :=
  current ← read_global;
  match current with
  | None =>
      instance ← OllamaClient_init None None;
      assign_global instance;;
      mret instance
  | Some instance => mret instance
  end.

End ollama_client.

(** ** Programs over the module *)

(** Everything a caller can do with the module: construct a facade, call
    one of its methods, or call one of the two module-level functions.
    There is no other entry point; in particular none that assigns
    [_ollama_client]. *)
Inductive operation : Type :=
| Construct (host model_name : option string)
| Test_connection (self : OllamaClient)
| List_models (self : OllamaClient)
| Generate_response (self : OllamaClient) (prompt : string)
    (model system_prompt : option string) (temperature : Q) (max_tokens : Z)
| Generate_with_personality (self : OllamaClient) (prompt personality_prompt : string)
    (model : option string)
| Generate_simple (self : OllamaClient) (prompt : string) (model : option string)
| Chat_with_history (self : OllamaClient) (messages : list Message)
    (model : option string) (temperature : Q)
| Pull_model_if_needed (self : OllamaClient) (model : string)
| Simple_chat (message : string) (model : option string)
| Get_ollama_client.

Section programs.

Variable environ : gmap string string.
Variable server : list call -> result pyval.

(** The state an operation leaves behind. *)
Definition perform (o : operation) (st : state) : state :=
  match o with
  | Construct h m => snd (OllamaClient_init environ h m st)
  | Test_connection self => snd (test_connection server self st)
  | List_models self => snd (list_models server self st)
  | Generate_response self p m s t n => snd (generate_response server self p m s t n st)
  | Generate_with_personality self p pp m =>
      snd (generate_with_personality server self p pp m st)
  | Generate_simple self p m => snd (generate_simple server self p m st)
  | Chat_with_history self ms m t => snd (chat_with_history server self ms m t st)
  | Pull_model_if_needed self m => snd (pull_model_if_needed server self m st)
  | Simple_chat msg m => snd (simple_chat environ server msg m st)
  | Get_ollama_client => snd (get_ollama_client environ st)
  end.

(** What the calls of [get_ollama_client] in a program observe, in
    order: the outcome of the call and the number of objects it
    allocated. *)
Fixpoint accesses (program : list operation) (st : state)
    : list (result OllamaClient * nat) :=
  match program with
  | [] => []
  | Get_ollama_client :: rest =>
      let (r, st') := get_ollama_client environ st in
      (r, next_oid st' - next_oid st) :: accesses rest st'
  | o :: rest => accesses rest (perform o st)
  end.

End programs.

(** ** The smoke-test script [test_ollama.py] *)

(** The names [ollama_client.py] binds at its top level, in the order its
    statements bind them (lines 5-10, 15, 17, 253, 278, 280). *)
Definition ollama_client_namespace : list string :=
  ["ollama"; "Client"; "ResponseError"; "os"; "Dict"; "List"; "Optional"; "Any";
   "load_dotenv"; "logging"; "logger"; "OllamaClient"; "simple_chat";
   "_ollama_client"; "get_ollama_client"].

(** [from module import n1, ..., nk]: the names are fetched from the
    namespace of the module from left to right, and the first one that is
    missing raises [ImportError]. *)
Fixpoint from_import (namespace names : list string) : py unit :=
  match names with
  | [] => mret tt
  | name :: rest =>
      if existsb (String.eqb name) namespace
      then from_import namespace rest
      else throw (ImportError name)
  end.

(** Running [ollama_client.py] for the import: of its top-level statements
    only line 278 touches the state. *)
Definition import_ollama_client : py unit :=
  fun st => (Return tt, set_ollama_client None st).

(** The script: line 9 imports from the facade module, the [def]s that
    follow bind the checks, and the last statement runs [main()].  The
    checks are whatever [main] does. *)
Definition test_ollama (main : py unit) : py unit :=
  import_ollama_client;;
  from_import ollama_client_namespace
    ["OllamaClient"; "get_ollama_client"; "simple_chat"; "simple_generate"];;
  main.

(** ** Reading a model identifier *)

(** Identifiers have the form [family:tag], and the tags of the two
    fallbacks are parameter counts in billions ([27b], [1b]). *)
Fixpoint tag (model : string) : string :=
  match model with
  | EmptyString => EmptyString
  | String c rest => if Ascii.eqb c ":"%char then rest else tag rest
  end.

Definition digit (c : Ascii.ascii) : option N :=
  let n := Ascii.N_of_ascii c in
  if ((48 <=? n) && (n <=? 57))%N then Some (n - 48)%N else None.

Fixpoint billions_from (t : string) (acc : N) : option N :=
  match t with
  | EmptyString => None
  | String c rest =>
      match digit c with
      | Some d => billions_from rest (10 * acc + d)%N
      | None => if Ascii.eqb c "b"%char && String.eqb rest "" then Some acc else None
      end
  end.

Definition billions (model : string) : option N := billions_from (tag model) 0%N.

(** ** Servers and inputs to run the module on *)

(** A server that cannot be reached. *)
Definition unreachable : list call -> result pyval :=
  fun _ => Raise (OtherException "ConnectionError" "Failed to connect to Ollama").

(** A server that answers every request with a structured error. *)
Definition rejecting : list call -> result pyval :=
  fun _ => Raise (ResponseError "model not found" 404).

Definition reply (text : string) : pyval :=
  VDict [("message", VDict [("role", VStr "assistant"); ("content", VStr text)])].

(** A mocked server: it lists [entries], answers every chat and completion
    with [text], and completes every pull. *)
Definition mocked (entries : list pyval) (text : string) : list call -> result pyval :=
  fun history =>
    match last history with
    | Some (CallChat _ _ _ _) => Return (reply text)
    | Some (CallGenerate _ _ _) => Return (VDict [("response", VStr text)])
    | Some (CallPull _ _) => Return (VDict [("status", VStr "success")])
    | _ => Return (VDict [("models", VList entries)])
    end.

(** A server that lists [entries] and fails every other request. *)
Definition listing_only (entries : list pyval) : list call -> result pyval :=
  fun history =>
    match last history with
    | Some (CallList _) => Return (VDict [("models", VList entries)])
    | _ => Raise (OtherException "ConnectionError" "pull failed")
    end.

(** An environment that names a host and leaves [MODEL_NAME] unset. *)
Definition host_only : gmap string string :=
  {[ "OLLAMA_HOST" := "http://10.0.0.5:11434" ]}.

(** A facade on the default host with the default model. *)
Definition facade : OllamaClient := mkClient 0 "http://localhost:11434" "gemma3:27b".

(** The conversation of [test_chat_history]. *)
Definition conversation : list Message :=
  [mkMessage "system" "你是一個友善的助手，喜歡用簡潔的方式回答問題。";
   mkMessage "user" "你好！我叫小明。";
   mkMessage "assistant" "你好小明！很高興認識你。";
   mkMessage "user" "你還記得我的名字嗎？"].

(** The canonical mapping of a model that only has a name. *)
Definition named_only (name : pyval) : pyval :=
  VDict [("name", name); ("size", VInt 0); ("modified_at", VNone);
         ("digest", VStr ""); ("details", VDict [])].

(** ** Reasoning about computations *)

(** [m] run from [st] returns a value: no exception leaves it. *)
Definition returns {A} (m : py A) (st : state) : Prop :=
  exists a, fst (m st) = Return a.

(** [m] never assigns the module global. *)
Definition keeps_global {A} (m : py A) : Prop :=
  forall st, _ollama_client (snd (m st)) = _ollama_client st.

(** [[f x for x in xs]] when [f] has no effect but may raise. *)
Fixpoint traverse {A B} (f : A -> result B) (xs : list A) : result (list B) :=
  match xs with
  | [] => Return []
  | x :: rest =>
      match f x with
      | Return y =>
          match traverse f rest with
          | Return ys => Return (y :: ys)
          | Raise e => Raise e
          end
      | Raise e => Raise e
      end
  end.

(** The value [processed] appends, as a function of the entry. *)
Definition projection (model : pyval) : pyval :=
  if py_hasattr model "model" then
    VDict [("name", py_getattr_default model "model" VNone);
           ("size", py_getattr_default model "size" (VInt 0));
           ("modified_at", py_getattr_default model "modified_at" VNone);
           ("digest", py_getattr_default model "digest" (VStr ""));
           ("details", py_getattr_default model "details" (VDict []))]
  else model.

(** [True] for [Return], [False] for [Raise]. *)
Definition completes {A} (r : result A) : bool :=
  match r with
  | Return _ => true
  | Raise _ => false
  end.

(** The request each generation method sends. *)
Definition chat_request (self : OllamaClient) (model : option string)
    (messages : list Message) (options : list (string * pyval)) : call :=
  CallChat (client self) (py_or model (model_name self)) messages (Some options).

Definition sampling (temperature : Q) (max_tokens : Z) : list (string * pyval) :=
  [("temperature", VFloat temperature); ("num_predict", VInt max_tokens)].

(** ** The checks of [test_ollama.py] *)

(** [if v:] on a dynamic value. *)
Definition py_bool (v : pyval) : bool :=
  match v with
  | VNone => false
  | VBool b => b
  | VInt n => negb (Z.eqb n 0)
  | VFloat q => negb (Qeq_bool q 0)
  | VStr s => negb (String.eqb s "")
  | VList items => negb (Nat.eqb (length items) 0)
  | VDict d => negb (Nat.eqb (length d) 0)
  | VObj _ => true
  end.

(** The number a value stands for in a comparison with a float; [bool] is
    a subclass of [int]. *)
Definition number (v : pyval) : option Q :=
  match v with
  | VInt n => Some (inject_Z n)
  | VFloat q => Some q
  | VBool b => Some (if b then 1 else 0)%Q
  | _ => None
  end.

(** [v > bound] for a float [bound]: numbers compare, anything else raises
    [TypeError]. *)
Definition py_gt (v : pyval) (bound : Q) : result bool :=
  match number v with
  | Some q => Return (negb (Qle_bool q bound))
  | None => Raise (TypeError ">")
  end.

(** [v[:100]], whose value is only printed: what matters is whether it can
    be taken. *)
Definition py_slice (v : pyval) : result unit :=
  match v with
  | VStr _ | VList _ => Return tt
  | _ => Raise (TypeError "slice")
  end.

(** [for x in xs: body x] *)
Fixpoint for_each {A} (xs : list A) (body : A -> py unit) : py unit :=
  match xs with
  | [] => mret tt
  | x :: rest => body x;; for_each rest body
  end.

Section checks.

Variable environ : gmap string string.
Variable server : list call -> result pyval.

(** Lines 30-39, the body of the loop of [test_basic_connection].  The
    text goes to the console, which the state does not hold; the reads and
    the comparisons are kept, because they can raise. *)
Definition print_model (model : pyval) : py unit :=
  name ← lift (py_get model "name" (VStr "N/A"));
  size ← lift (py_get model "size" (VInt 0));
  lift (py_gt size 1e9) ≫= fun gigabytes : bool =>
  if gigabytes then mret tt
  else
    megabytes ← lift (py_gt size 1e6);
    mret tt.

(** [test_basic_connection()] *)
Definition test_basic_connection : py bool :=
  client ← OllamaClient_init environ None None;
  test_connection server client ≫= fun is_connected : bool =>
  (if is_connected then
     models ← list_models server client;
     for_each models print_model
   else mret tt);;
  mret is_connected.

(** [test_simple_functions()] *)
Definition test_simple_functions : py bool :=
  let prompt := "請用一句話介紹你自己" in
  response ← simple_chat environ server prompt None;
  if py_bool response then
    lift (py_slice response);;
    mret true
  else mret false.

(** [test_client_generation()] *)
Definition test_client_generation : py bool :=
  client ← get_ollama_client environ;
  let prompt := "請簡單介紹台灣的特色" in
  response ← generate_response server client prompt None None 0.5 100;
  if py_bool response then mret true else mret false.

(** The personality of [test_personality_generation], lines 83-89. *)
Definition enfp : string :=
"你是一個熱情外向的ENFP類型人格，具有以下特徵：
- 充滿熱情和創意
- 喜歡鼓勵他人
- 說話生動有趣，經常使用比喻
- 對新可能性感到興奮

請以這種人格風格回答問題。".

(** [test_personality_generation()] *)
Definition test_personality_generation : py bool :=
  client ← get_ollama_client environ;
  let personality_prompt := enfp in
  let prompt := "今天天氣很好，你有什麼建議嗎？" in
  response ← generate_with_personality server client prompt personality_prompt None;
  if py_bool response then mret true else mret false.

(** [test_chat_history()]; the messages are [conversation]. *)
Definition test_chat_history : py bool :=
  client ← get_ollama_client environ;
  let messages := conversation in
  response ← chat_with_history server client messages None default_temperature;
  if py_bool response then mret true else mret false.

(** Lines 175-183 of [main()]: each check in its own [try], its verdict
    appended to [results], [False] when it raised. *)
Fixpoint run_tests (tests : list (string * py bool)) (results : list (string * bool))
    : py (list (string * bool)) :=
  match tests with
  | [] => mret results
  | (test_name, test_func) :: rest =>
      results ←
        try_except
          (test_func ≫= fun result : bool =>
           mret (results ++ [(test_name, result)]))
          (fun e => mret (results ++ [(test_name, false)]));
      run_tests rest results
  end.

(** Line 192: the number of checks that passed. *)
Definition success_count (results : list (string * bool)) : nat :=
  list_sum (map (fun r : string * bool => if snd r then 1 else 0) results).

(** Lines 166-173: the checks in the order [main()] runs them.  The second,
    [test_model_availability], may hand a name of any type to
    [generate_response]; it is left as it comes. *)
Definition tests (test_model_availability : py bool) : list (string * py bool) :=
  [("基本連接", test_basic_connection);
   ("模型可用性", test_model_availability);
   ("全域簡單函數", test_simple_functions);
   ("客戶端生成", test_client_generation);
   ("人格化生成", test_personality_generation);
   ("對話歷史", test_chat_history)].

(** [main()] *)
Definition main (test_model_availability : py bool) : py unit :=
  results ← run_tests (tests test_model_availability) [];
  let success_count := success_count results in
  let total_tests := length results in
  mret tt.

End checks.

(** ** Observations on a run *)

(** Who carries a request. *)
Definition via (c : call) : carrier :=
  match c with
  | CallList v => v
  | CallChat v _ _ _ => v
  | CallGenerate v _ _ => v
  | CallPull v _ => v
  end.

(** [m] only adds requests to the history, and each one it adds
    satisfies [P]. *)
Definition sends_only (P : call -> Prop) {A} (m : py A) : Prop :=
  forall st, exists new, calls (snd (m st)) = calls st ++ new /\ Forall P new.

(** A server none of whose requests completes. *)
Definition failing (server : list call -> result pyval) : Prop :=
  forall history, completes (server history) = false.

(** A server that lists one structured model whose size is not known. *)
Definition sizeless : list call -> result pyval :=
  fun _ => Return (VDict [("models", VList [VObj [("model", VStr "gemma3:1b");
                                                  ("size", VNone)]])]).

(** A server whose chat answers are well formed and empty. *)
Definition speechless : list call -> result pyval :=
  fun _ => Return (reply "").

(** Since [st], the run that ended in [r] has logged nothing, or one error
    record while returning [sentinel]. *)
Definition logged_once {A} (st : state) (sentinel : A) (r : result A * state) : Prop :=
  logged (snd r) = logged st \/
  exists text, logged (snd r) = logged st ++ [mkLog ERROR text] /\ fst r = Return sentinel.

Ltac py_unfold :=
  unfold mbind, py_bind, mret, py_ret, try_except, lift, throw, remote,
    logger_info, logger_error, new_object, read_global, assign_global in *.

Create HintDb py_global.

Lemma keeps_global_ret {A} (a : A) : keeps_global (mret a).
Proof. intros st. reflexivity. Qed.

Lemma keeps_global_lift {A} (r : result A) : keeps_global (lift r).
Proof. intros st. reflexivity. Qed.

Lemma keeps_global_bind {A B} (m : py A) (k : A -> py B) :
  keeps_global m -> (forall a, keeps_global (k a)) -> keeps_global (m ≫= k).
Proof.
  intros Hm Hk st. py_unfold. specialize (Hm st).
  destruct (m st) as [[a | e] st']; simpl in *.
  - rewrite Hk. exact Hm.
  - exact Hm.
Qed.

Lemma keeps_global_try {A} (body : py A) (handler : exn -> py A) :
  keeps_global body -> (forall e, keeps_global (handler e)) ->
  keeps_global (try_except body handler).
Proof.
  intros Hb Hh st. py_unfold. specialize (Hb st).
  destruct (body st) as [[a | e] st']; simpl in *.
  - exact Hb.
  - rewrite Hh. exact Hb.
Qed.

Lemma keeps_global_remote server c : keeps_global (remote server c).
Proof. intros st. reflexivity. Qed.

Lemma keeps_global_info msg : keeps_global (logger_info msg).
Proof. intros st. reflexivity. Qed.

Lemma keeps_global_error msg : keeps_global (logger_error msg).
Proof. intros st. reflexivity. Qed.

Lemma keeps_global_new_object : keeps_global new_object.
Proof. intros st. reflexivity. Qed.

#[local] Hint Resolve keeps_global_ret keeps_global_lift keeps_global_bind
  keeps_global_try keeps_global_remote keeps_global_info keeps_global_error
  keeps_global_new_object : py_global.

Lemma keeps_global_comprehension {A B} (f : A -> py B) (xs : list A) :
  (forall x, keeps_global (f x)) -> keeps_global (comprehension f xs).
Proof.
  intros Hf. induction xs as [| x xs IH]; simpl; auto 6 with py_global.
Qed.

Ltac keeps :=
  repeat first
    [ apply keeps_global_ret | apply keeps_global_lift | apply keeps_global_remote
    | apply keeps_global_info | apply keeps_global_error | apply keeps_global_new_object
    | apply keeps_global_try | apply keeps_global_bind
    | apply keeps_global_comprehension
    | match goal with
      | |- forall _, keeps_global _ => intro
      | |- keeps_global (if ?b then _ else _) => destruct b
      | |- keeps_global (match ?e with _ => _ end) => destruct e
      end ].

(** A handler that returns makes the whole [try] return. *)
Lemma try_except_returns {A} (body : py A) (handler : exn -> py A) st :
  (forall e st', returns (handler e) st') -> returns (try_except body handler) st.
Proof.
  intros Hh. unfold returns, try_except.
  destruct (body st) as [[a | e] st']; simpl.
  - exists a. reflexivity.
  - apply Hh.
Qed.

Lemma comprehension_lift {A B} (f : A -> result B) (xs : list A) st :
  comprehension (fun x => lift (f x)) xs st = (traverse f xs, st).
Proof.
  revert st. induction xs as [| x xs IH]; intros st; simpl.
  - reflexivity.
  - py_unfold. destruct (f x) as [y | e]; [| reflexivity].
    rewrite IH. destruct (traverse f xs); reflexivity.
Qed.

(** ** [list_models] *)

Lemma processed_projection model st :
  processed model st = (Return (projection model), st).
Proof.
  unfold processed, projection.
  destruct model; simpl; try reflexivity.
  unfold py_getattr, py_getattr_default, py_hasattr.
  destruct (assoc "model" attributes) as [v |]; reflexivity.
Qed.

Lemma process_models_map models acc st :
  process_models models acc st = (Return (acc ++ map projection models), st).
Proof.
  revert acc. induction models as [| model rest IH]; intros acc; simpl.
  - rewrite app_nil_r. reflexivity.
  - unfold mbind, py_bind. rewrite processed_projection, IH.
    rewrite <- app_assoc. reflexivity.
Qed.

(** [list_models] issues exactly one request, the listing. *)
Lemma list_models_calls server self st :
  calls (snd (list_models server self st)) = calls st ++ [CallList (client self)].
Proof.
  unfold list_models. py_unfold.
  destruct (server _) as [response | e]; simpl; [| reflexivity].
  destruct (py_get response "models" (VList [])) as [models | e]; simpl; [| reflexivity].
  destruct (py_iter models) as [entries | e]; simpl; [| reflexivity].
  rewrite process_models_map. reflexivity.
Qed.

Lemma list_models_returns server self st : returns (list_models server self) st.
Proof.
  apply try_except_returns. intros e st'. eexists. reflexivity.
Qed.

(** The listing of a well-formed answer. *)
Lemma list_models_answer server self st d entries :
  server (calls st ++ [CallList (client self)]) = Return (VDict d) ->
  assoc "models" d = Some (VList entries) ->
  fst (list_models server self st) = Return (map projection entries).
Proof.
  intros Hs Hd. unfold list_models. py_unfold. rewrite Hs. simpl.
  rewrite Hd. simpl. rewrite process_models_map. reflexivity.
Qed.

Lemma list_models_failure server self st e :
  server (calls st ++ [CallList (client self)]) = Raise e ->
  fst (list_models server self st) = Return [].
Proof. intros Hs. unfold list_models. py_unfold. rewrite Hs. reflexivity. Qed.

(** ** [pull_model_if_needed], case by case *)

Lemma pull_model_if_needed_cases server self name st :
  let r := pull_model_if_needed server self name st in
  let listed := calls st ++ [CallList (client self)] in
  exists models st1,
    list_models server self st = (Return models, st1) /\
    match traverse (fun m => py_get m "name" (VStr "")) models with
    | Raise _ => fst r = Return false /\ calls (snd r) = listed
    | Return names =>
        if py_in name names
        then fst r = Return true /\ calls (snd r) = listed
        else fst r = Return (completes (server (listed ++ [CallPull (client self) name])))
             /\ calls (snd r) = listed ++ [CallPull (client self) name]
    end.
Proof.
  intros r listed.
  destruct (list_models_returns server self st) as [models Hm].
  pose proof (list_models_calls server self st) as Hc.
  destruct (list_models server self st) as [r1 st1] eqn:E. simpl in Hm, Hc. subst r1.
  exists models, st1. split; [reflexivity |].
  subst r. unfold pull_model_if_needed, try_except, mbind, py_bind.
  rewrite E, comprehension_lift.
  destruct (traverse _ models) as [names | e]; simpl.
  - destruct (py_in name names); py_unfold; simpl.
    + split; [reflexivity | exact Hc].
    + rewrite Hc. fold listed.
      destruct (server (listed ++ [CallPull (client self) name])); simpl;
        split; reflexivity.
  - split; [reflexivity | exact Hc].
Qed.

(** X15. A listing that raises does not stop [pull_model_if_needed]:
    [list_models] turns it into the empty list, no name matches, and the
    pull is sent; the verdict is that of the pull. *)
Lemma pull_model_if_needed_after_failed_listing server self name st e :
  server (calls st ++ [CallList (client self)]) = Raise e ->
  let r := pull_model_if_needed server self name st in
  calls (snd r) = calls st ++ [CallList (client self); CallPull (client self) name] /\
  fst r = Return (completes (server (calls st ++ [CallList (client self);
                                                  CallPull (client self) name]))).
Proof.
  intros He r. subst r.
  destruct (pull_model_if_needed_cases server self name st) as (models & st1 & Hl & Hcases).
  pose proof (list_models_failure server self st e He) as Hempty.
  rewrite Hl in Hempty. simpl in Hempty. injection Hempty as ->.
  simpl in Hcases. rewrite <- app_assoc in Hcases. simpl in Hcases.
  destruct Hcases as [Hr Hc]. split; assumption.
Qed.

(** ** The error policy *)

Lemma generate_response_returns server self prompt model system_prompt temperature max_tokens st :
  returns (generate_response server self prompt model system_prompt temperature max_tokens) st.
Proof.
  apply try_except_returns. intros e st'. destruct e; eexists; reflexivity.
Qed.

Lemma generate_simple_returns server self prompt model st :
  returns (generate_simple server self prompt model) st.
Proof.
  apply try_except_returns. intros e st'. destruct e; eexists; reflexivity.
Qed.

Lemma chat_with_history_returns server self messages model temperature st :
  returns (chat_with_history server self messages model temperature) st.
Proof.
  apply try_except_returns. intros e st'. destruct e; eexists; reflexivity.
Qed.

Lemma generate_response_failure server self prompt model system_prompt temperature max_tokens st e :
  server (calls st ++ [chat_request self model (build_messages prompt system_prompt)
                         (sampling temperature max_tokens)]) = Raise e ->
  fst (generate_response server self prompt model system_prompt temperature max_tokens st)
  = Return VNone.
Proof.
  intros Hs. unfold chat_request, sampling in Hs.
  unfold generate_response, message_content. py_unfold. rewrite Hs.
  destruct e; reflexivity.
Qed.

(** C1. No exception leaves a facade method: each of the seven methods
    returns a value from every state and against every server, and when the
    request it sends to the client raises, the value is the sentinel of the
    method: [False] for [test_connection] and [pull_model_if_needed], the
    empty list for [list_models], [None] for the four generation and chat
    methods. *)
Theorem no_exception_escapes
    (server : list call -> result pyval) (self : OllamaClient) (st : state)
    (prompt personality_prompt name : string) (model system_prompt : option string)
    (temperature : Q) (max_tokens : Z) (messages : list Message) :
  (returns (test_connection server self) st /\
   returns (list_models server self) st /\
   returns (generate_response server self prompt model system_prompt temperature max_tokens) st /\
   returns (generate_with_personality server self prompt personality_prompt model) st /\
   returns (generate_simple server self prompt model) st /\
   returns (chat_with_history server self messages model temperature) st /\
   returns (pull_model_if_needed server self name) st) /\
  (forall e, server (calls st ++ [CallList (client self)]) = Raise e ->
     fst (test_connection server self st) = Return false /\
     fst (list_models server self st) = Return []) /\
  (forall e,
     server (calls st ++ [chat_request self model (build_messages prompt system_prompt)
                            (sampling temperature max_tokens)]) = Raise e ->
     fst (generate_response server self prompt model system_prompt temperature max_tokens st)
     = Return VNone) /\
  (forall e,
     server (calls st ++ [chat_request self model
                            (build_messages prompt (Some personality_prompt))
                            (sampling 0.8 1000)]) = Raise e ->
     fst (generate_with_personality server self prompt personality_prompt model st)
     = Return VNone) /\
  (forall e,
     server (calls st ++ [CallGenerate (client self) (py_or model (model_name self)) prompt])
     = Raise e ->
     fst (generate_simple server self prompt model st) = Return VNone) /\
  (forall e,
     server (calls st ++ [chat_request self model messages [("temperature", VFloat temperature)]])
     = Raise e ->
     fst (chat_with_history server self messages model temperature st) = Return VNone) /\
  (forall e,
     calls (snd (pull_model_if_needed server self name st))
     = calls st ++ [CallList (client self); CallPull (client self) name] ->
     server (calls st ++ [CallList (client self); CallPull (client self) name]) = Raise e ->
     fst (pull_model_if_needed server self name st) = Return false).
Proof.
  repeat split.
  - apply try_except_returns. intros e st'. eexists. reflexivity.
  - apply list_models_returns.
  - apply generate_response_returns.
  - apply generate_response_returns.
  - apply generate_simple_returns.
  - apply chat_with_history_returns.
  - apply try_except_returns. intros e st'. eexists. reflexivity.
  - unfold test_connection. py_unfold. rewrite H. reflexivity.
  - exact (list_models_failure _ _ _ _ H).
  - intros e H. exact (generate_response_failure _ _ _ _ _ _ _ _ _ H).
  - intros e H. exact (generate_response_failure _ _ _ _ _ _ _ _ _ H).
  - intros e H. unfold generate_simple. py_unfold. rewrite H. destruct e; reflexivity.
  - intros e H. unfold chat_request in H.
    unfold chat_with_history, message_content. py_unfold.
    rewrite H. destruct e; reflexivity.
  - intros e H H0.
    destruct (pull_model_if_needed_cases server self name st) as (models & st1 & _ & Hcases).
    rewrite <- app_assoc in Hcases. simpl in Hcases.
    destruct (traverse _ models) as [names | e'].
    + destruct (py_in name names).
      * destruct Hcases as [_ Hc]. rewrite Hc in H.
        apply app_inv_head in H. discriminate.
      * destruct Hcases as [Hr _]. rewrite Hr, H0. reflexivity.
    + apply Hcases.
Qed.

Lemma no_exception_escapes_witness :
  fst (test_connection unreachable facade initial) = Return false /\
  fst (list_models unreachable facade initial) = Return [] /\
  fst (generate_response unreachable facade "hi" None None 0.7 1000 initial) = Return VNone /\
  fst (generate_with_personality unreachable facade "hi" "be kind" None initial) = Return VNone /\
  fst (generate_simple unreachable facade "hi" None initial) = Return VNone /\
  fst (chat_with_history unreachable facade conversation None 0.7 initial) = Return VNone /\
  fst (pull_model_if_needed unreachable facade "gemma3:1b" initial) = Return false.
Proof.
  destruct (no_exception_escapes unreachable facade initial "hi" "be kind" "gemma3:1b"
              None None 0.7 1000 conversation)
    as (_ & Hlist & Hgen & Hpers & Hsimple & Hchat & Hpull).
  pose (e := OtherException "ConnectionError" "Failed to connect to Ollama").
  destruct (Hlist e eq_refl) as [Htest Hmodels].
  exact (conj Htest (conj Hmodels (conj (Hgen e eq_refl) (conj (Hpers e eq_refl)
           (conj (Hsimple e eq_refl) (conj (Hchat e eq_refl) (Hpull e eq_refl eq_refl))))))).
Defined.

(** ** Normalising the listing *)

(** The claim on an entry that has a [name] attribute and nothing else: the
    loop looks for the attribute [model], does not find it, and appends the
    object as it is. *)
Lemma name_attribute_is_not_projected :
  fst (list_models (mocked [VObj [("name", VStr "llama3")]] "") facade initial)
  = Return [VObj [("name", VStr "llama3")]] /\
  fst (list_models (mocked [VObj [("name", VStr "llama3")]] "") facade initial)
  <> Return [named_only (VStr "llama3")].
Proof. split; [reflexivity | discriminate]. Qed.

(** C2, amended.  Against a server whose answer is a mapping with a list
    under ['models'], [list_models] returns one item per entry, in order.
    An entry with a [model] attribute becomes the mapping of [name] (the
    value of that attribute), [size], [modified_at], [digest] and [details],
    each absent attribute replaced by its default [0], [None], [''] and
    [{}]; so an entry with only [model] set becomes [named_only].  An entry
    without a [model] attribute, a mapping in particular, is passed through
    unchanged. *)
Theorem list_models_projects_model_attribute
    (server : list call -> result pyval) (self : OllamaClient) (st : state)
    (d : list (string * pyval)) (entries : list pyval) :
  server (calls st ++ [CallList (client self)]) = Return (VDict d) ->
  assoc "models" d = Some (VList entries) ->
  exists items,
    fst (list_models server self st) = Return items /\
    Forall2 (fun entry item =>
      (forall attrs name, entry = VObj attrs -> assoc "model" attrs = Some name ->
         item = VDict [("name", name);
                       ("size", default (VInt 0) (assoc "size" attrs));
                       ("modified_at", default VNone (assoc "modified_at" attrs));
                       ("digest", default (VStr "") (assoc "digest" attrs));
                       ("details", default (VDict []) (assoc "details" attrs))]) /\
      (forall name, entry = VObj [("model", name)] -> item = named_only name) /\
      (py_hasattr entry "model" = false -> item = entry) /\
      (forall m, entry = VDict m -> item = entry))
      entries items.
Proof.
  intros Hs Hd. exists (map projection entries). split.
  - eapply list_models_answer; eassumption.
  - clear. induction entries as [| entry rest IH]; simpl; constructor; [| exact IH].
    unfold projection. repeat split.
    + intros attrs name -> Hname. simpl. rewrite Hname. reflexivity.
    + intros name ->. reflexivity.
    + intros ->. reflexivity.
    + intros m ->. reflexivity.
Qed.

Lemma list_models_projects_model_attribute_witness :
  exists items,
    fst (list_models (mocked [VObj [("model", VStr "llama3")];
                              VDict [("name", VStr "phi3"); ("size", VInt 42)]] "")
           facade initial) = Return items /\
    items = [named_only (VStr "llama3"); VDict [("name", VStr "phi3"); ("size", VInt 42)]].
Proof.
  destruct (list_models_projects_model_attribute
              (mocked [VObj [("model", VStr "llama3")];
                       VDict [("name", VStr "phi3"); ("size", VInt 42)]] "")
              facade initial _ _ eq_refl eq_refl) as (items & Hitems & Hall).
  exists items. split; [exact Hitems |].
  inversion Hall as [| e1 i1 es1 is1 H1 Hrest]; subst.
  inversion Hrest as [| e2 i2 es2 is2 H2 Hnil]; subst.
  inversion Hnil; subst.
  destruct H1 as (_ & Hone & _). destruct H2 as (_ & _ & _ & Hmap).
  rewrite (Hone _ eq_refl), (Hmap _ eq_refl). reflexivity.
Defined.

(** ** Generation *)

(** [generate_response] sends one chat request, whatever comes back. *)
Lemma generate_response_calls server self prompt model system_prompt temperature max_tokens st :
  calls (snd (generate_response server self prompt model system_prompt temperature
                max_tokens st))
  = calls st ++ [chat_request self model (build_messages prompt system_prompt)
                   (sampling temperature max_tokens)].
Proof.
  unfold generate_response, message_content, chat_request, sampling. py_unfold.
  destruct (server _) as [response | e]; simpl.
  - destruct (py_getitem response "message") as [message | e]; simpl.
    + destruct (py_getitem message "content") as [text | e]; simpl;
        [reflexivity | destruct e; reflexivity].
    + destruct e; reflexivity.
  - destruct e; reflexivity.
Qed.

(** The value a chat method returns for a well-formed answer. *)
Lemma generate_response_answer server self prompt model system_prompt temperature max_tokens
    st d m text :
  server (calls st ++ [chat_request self model (build_messages prompt system_prompt)
                         (sampling temperature max_tokens)]) = Return (VDict d) ->
  assoc "message" d = Some (VDict m) ->
  assoc "content" m = Some text ->
  fst (generate_response server self prompt model system_prompt temperature max_tokens st)
  = Return text.
Proof.
  intros Hs Hd Hm. unfold chat_request, sampling in Hs.
  unfold generate_response, message_content. py_unfold. rewrite Hs. simpl.
  rewrite Hd. simpl. rewrite Hm. reflexivity.
Qed.

(** C3. [generate_with_personality] is [generate_response] with the
    personality prompt as system prompt and the temperature 0.8: the two
    computations agree on every input, in the value returned and in the state
    left behind.  The one request it sends is a chat request whose options
    carry the temperature 0.8, which is not the default 0.7 of
    [generate_response]; the function has no temperature argument. *)
Theorem generate_with_personality_fixes_temperature
    (server : list call -> result pyval) (self : OllamaClient) (st : state)
    (prompt personality_prompt : string) (model : option string) :
  generate_with_personality server self prompt personality_prompt model st
  = generate_response server self prompt model (Some personality_prompt) 0.8
      default_max_tokens st /\
  (exists chosen messages options,
     calls (snd (generate_with_personality server self prompt personality_prompt model st))
     = calls st ++ [CallChat (client self) chosen messages (Some options)] /\
     messages = build_messages prompt (Some personality_prompt) /\
     assoc "temperature" options = Some (VFloat 0.8)) /\
  VFloat 0.8 <> VFloat default_temperature.
Proof.
  split; [reflexivity | split].
  - exists (py_or model (model_name self)),
           (build_messages prompt (Some personality_prompt)),
           (sampling 0.8 default_max_tokens).
    split; [| split; reflexivity].
    unfold generate_with_personality. rewrite generate_response_calls. reflexivity.
  - discriminate.
Qed.

(** ** Chat with a history *)

(** C4. [chat_with_history] sends one chat request, and its [messages] are
    the caller's sequence itself: nothing is prepended, appended or
    rewritten.  It returns the content of the message of the answer, and
    [None] when the request raises. *)
Theorem chat_with_history_forwards_messages
    (server : list call -> result pyval) (self : OllamaClient) (st : state)
    (messages : list Message) (model : option string) (temperature : Q) :
  let request :=
    CallChat (client self) (py_or model (model_name self)) messages
      (Some [("temperature", VFloat temperature)]) in
  calls (snd (chat_with_history server self messages model temperature st))
  = calls st ++ [request] /\
  (forall d m text,
     server (calls st ++ [request]) = Return (VDict d) ->
     assoc "message" d = Some (VDict m) ->
     assoc "content" m = Some text ->
     fst (chat_with_history server self messages model temperature st) = Return text) /\
  (forall e,
     server (calls st ++ [request]) = Raise e ->
     fst (chat_with_history server self messages model temperature st) = Return VNone).
Proof.
  intros request. subst request.
  unfold chat_with_history, message_content. py_unfold. repeat split.
  - destruct (server _) as [response | e]; simpl.
    + destruct (py_getitem response "message") as [message | e]; simpl.
      * destruct (py_getitem message "content") as [text | e]; simpl;
          [reflexivity | destruct e; reflexivity].
      * destruct e; reflexivity.
    + destruct e; reflexivity.
  - intros d m text Hs Hd Hm. rewrite Hs. simpl. rewrite Hd. simpl. rewrite Hm. reflexivity.
  - intros e Hs. rewrite Hs. destruct e; reflexivity.
Qed.

Lemma chat_with_history_forwards_messages_witness :
  (exists chosen options,
     calls (snd (chat_with_history (mocked [] "小明") facade conversation None 0.7 initial))
     = [CallChat (client facade) chosen conversation options]) /\
  length conversation = 4 /\
  fst (chat_with_history (mocked [] "小明") facade conversation None 0.7 initial)
  = Return (VStr "小明") /\
  fst (chat_with_history rejecting facade conversation None 0.7 initial) = Return VNone.
Proof.
  destruct (chat_with_history_forwards_messages (mocked [] "小明") facade initial
              conversation None 0.7) as (Hcalls & Hanswer & _).
  destruct (chat_with_history_forwards_messages rejecting facade initial
              conversation None 0.7) as (_ & _ & Hraise).
  split; [| split; [reflexivity | split]].
  - eexists _, _. exact Hcalls.
  - exact (Hanswer _ _ _ eq_refl eq_refl eq_refl).
  - exact (Hraise _ eq_refl).
Defined.

(** ** Pulling a model *)

(** The claim on a listing whose one item is an object without [get]: the
    item is none of the model asked for and the pull would complete, yet the
    method sends no pull and returns [False]. *)
Lemma unreadable_listing_is_not_pulled :
  fst (list_models (mocked [VObj [("name", VStr "llama3")]] "") facade initial)
  = Return [VObj [("name", VStr "llama3")]] /\
  completes (mocked [VObj [("name", VStr "llama3")]] ""
               [CallList (client facade); CallPull (client facade) "gemma3:27b"]) = true /\
  fst (pull_model_if_needed (mocked [VObj [("name", VStr "llama3")]] "") facade
         "gemma3:27b" initial) = Return false /\
  calls (snd (pull_model_if_needed (mocked [VObj [("name", VStr "llama3")]] "") facade
                "gemma3:27b" initial)) = [CallList (client facade)].
Proof. repeat split. Qed.

(** C5, amended.  [pull_model_if_needed] reads a name off every item of
    the result of [list_models], with [get].  When that succeeds and gives
    [names]: if [model] is in [names], the method returns [True] and the
    listing is the only request it has sent, there is no pull; if it is not,
    the method sends the pull after the listing, and returns [True] if the
    pull completes and [False] if it raises.  When it fails, as on an item
    that has no [get], the method returns [False] and the listing is the only
    request it has sent. *)
Theorem pull_model_if_needed_pulls_when_absent
    (server : list call -> result pyval) (self : OllamaClient) (st : state)
    (model : string) (models : list pyval) (st1 : state) :
  list_models server self st = (Return models, st1) ->
  let r := pull_model_if_needed server self model st in
  let read := traverse (fun m => py_get m "name" (VStr "")) models in
  let listing := CallList (client self) in
  let pull := CallPull (client self) model in
  (forall names, read = Return names -> py_in model names = true ->
     fst r = Return true /\ calls (snd r) = calls st ++ [listing]) /\
  (forall names, read = Return names -> py_in model names = false ->
     calls (snd r) = calls st ++ [listing; pull] /\
     (forall v, server (calls st ++ [listing; pull]) = Return v -> fst r = Return true) /\
     (forall e, server (calls st ++ [listing; pull]) = Raise e -> fst r = Return false)) /\
  (forall e, read = Raise e ->
     fst r = Return false /\ calls (snd r) = calls st ++ [listing]).
Proof.
  intros Hlist r read listing pull. subst r read listing pull.
  destruct (pull_model_if_needed_cases server self model st) as (models' & st1' & Hl & Hcases).
  rewrite Hlist in Hl. injection Hl as <- <-.
  rewrite <- app_assoc in Hcases. simpl in Hcases.
  split; [| split].
  - intros names Hnames Hin. rewrite Hnames, Hin in Hcases. exact Hcases.
  - intros names Hnames Hin. rewrite Hnames, Hin in Hcases. destruct Hcases as [Hr Hc].
    split; [exact Hc | split].
    + intros v Hv. rewrite Hr, Hv. reflexivity.
    + intros e He. rewrite Hr, He. reflexivity.
  - intros e Hnames. rewrite Hnames in Hcases. exact Hcases.
Qed.

Lemma pull_model_if_needed_pulls_when_absent_witness :
  (fst (pull_model_if_needed (mocked [VObj [("model", VStr "gemma3:1b")]] "") facade
          "gemma3:1b" initial) = Return true /\
   calls (snd (pull_model_if_needed (mocked [VObj [("model", VStr "gemma3:1b")]] "") facade
                 "gemma3:1b" initial)) = [CallList (client facade)]) /\
  (calls (snd (pull_model_if_needed (mocked [VObj [("model", VStr "gemma3:1b")]] "") facade
                 "gemma3:27b" initial))
   = [CallList (client facade); CallPull (client facade) "gemma3:27b"] /\
   fst (pull_model_if_needed (mocked [VObj [("model", VStr "gemma3:1b")]] "") facade
          "gemma3:27b" initial) = Return true) /\
  fst (pull_model_if_needed (listing_only [VObj [("model", VStr "gemma3:1b")]]) facade
         "gemma3:27b" initial) = Return false /\
  (fst (pull_model_if_needed (mocked [VDict [("name", VStr "gemma3:1b")]; VInt 7] "") facade
          "gemma3:27b" initial) = Return false /\
   calls (snd (pull_model_if_needed (mocked [VDict [("name", VStr "gemma3:1b")]; VInt 7] "")
                 facade "gemma3:27b" initial)) = [CallList (client facade)]).
Proof.
  split; [| split; [| split]].
  - exact (proj1 (pull_model_if_needed_pulls_when_absent
                    (mocked [VObj [("model", VStr "gemma3:1b")]] "") facade initial
                    "gemma3:1b" _ _ eq_refl) _ eq_refl eq_refl).
  - destruct (proj1 (proj2 (pull_model_if_needed_pulls_when_absent
                              (mocked [VObj [("model", VStr "gemma3:1b")]] "") facade initial
                              "gemma3:27b" _ _ eq_refl)) _ eq_refl eq_refl)
      as (Hc & Hok & _).
    split; [exact Hc | exact (Hok _ eq_refl)].
  - destruct (proj1 (proj2 (pull_model_if_needed_pulls_when_absent
                              (listing_only [VObj [("model", VStr "gemma3:1b")]]) facade
                              initial "gemma3:27b" _ _ eq_refl)) _ eq_refl eq_refl)
      as (_ & _ & Hfail).
    exact (Hfail _ eq_refl).
  - exact (proj2 (proj2 (pull_model_if_needed_pulls_when_absent
                           (mocked [VDict [("name", VStr "gemma3:1b")]; VInt 7] "") facade
                           initial "gemma3:27b" _ _ eq_refl)) _ eq_refl).
Defined.

(** ** What the handlers log *)

(** What [generate_response] and [generate_simple] do with a structured
    error: both its message and its status code go to the logger, at error
    severity, and the method returns [None]. *)
Lemma generate_response_logs_status_code server self prompt model system_prompt temperature
    max_tokens st error status_code :
  server (calls st ++ [chat_request self model (build_messages prompt system_prompt)
                         (sampling temperature max_tokens)])
  = Raise (ResponseError error status_code) ->
  let r := generate_response server self prompt model system_prompt temperature max_tokens st in
  fst r = Return VNone /\
  logged (snd r)
  = logged st ++ [mkLog ERROR [Lit "Ollama 回應錯誤: "; FStr error;
                               Lit " (狀態碼: "; FInt status_code; Lit ")"]].
Proof.
  intros Hs. unfold chat_request, sampling in Hs.
  unfold generate_response, message_content. py_unfold. rewrite Hs. split; reflexivity.
Qed.

Lemma generate_simple_logs_status_code server self prompt model st error status_code :
  server (calls st ++ [CallGenerate (client self) (py_or model (model_name self)) prompt])
  = Raise (ResponseError error status_code) ->
  let r := generate_simple server self prompt model st in
  fst r = Return VNone /\
  logged (snd r)
  = logged st ++ [mkLog ERROR [Lit "Ollama 回應錯誤: "; FStr error;
                               Lit " (狀態碼: "; FInt status_code; Lit ")"]].
Proof.
  intros Hs. unfold generate_simple. py_unfold. rewrite Hs. split; reflexivity.
Qed.

(** The handler of [chat_with_history] logs the message of a structured
    error and nothing else. *)
Lemma chat_with_history_logs_error_only server self messages model temperature st error
    status_code :
  server (calls st ++ [chat_request self model messages [("temperature", VFloat temperature)]])
  = Raise (ResponseError error status_code) ->
  let r := chat_with_history server self messages model temperature st in
  fst r = Return VNone /\
  logged (snd r) = logged st ++ [mkLog ERROR [Lit "對話生成錯誤: "; FStr error]].
Proof.
  intros Hs. unfold chat_request in Hs.
  unfold chat_with_history, message_content. py_unfold. rewrite Hs. split; reflexivity.
Qed.

(** C6. Against a server that answers with the structured error
    ("model not found", 404) the three generation methods return [None].
    [generate_response] and [generate_simple] log the message and the status
    code; the record [chat_with_history] logs has the message and no status
    code in it. *)
Theorem chat_with_history_omits_status_code :
  (fst (generate_response rejecting facade "hi" None None 0.7 1000 initial) = Return VNone /\
   fst (generate_simple rejecting facade "hi" None initial) = Return VNone /\
   fst (chat_with_history rejecting facade conversation None 0.7 initial) = Return VNone) /\
  (Forall (fun r => In (FStr "model not found") (message r) /\ In (FInt 404) (message r))
     (logged (snd (generate_response rejecting facade "hi" None None 0.7 1000 initial))
      ++ logged (snd (generate_simple rejecting facade "hi" None initial)))) /\
  logged (snd (chat_with_history rejecting facade conversation None 0.7 initial))
  = [mkLog ERROR [Lit "對話生成錯誤: "; FStr "model not found"]] /\
  Forall (fun r => ~ In (FInt 404) (message r))
    (logged (snd (chat_with_history rejecting facade conversation None 0.7 initial))).
Proof.
  pose proof (chat_with_history_logs_error_only rejecting facade conversation None 0.7
                initial "model not found" 404 eq_refl) as [Hnone Hlog].
  cbv zeta in Hlog. rewrite Hlog.
  split; [split; [reflexivity | split; [reflexivity | exact Hnone]] | split; [| split]].
  - simpl. constructor; [| constructor; [| constructor]]; simpl; tauto.
  - reflexivity.
  - constructor; [| constructor].
    simpl. intros [H | [H | []]]; discriminate.
Qed.

(** ** Building the chat request *)

(** The claim on the empty system prompt: it is a system prompt that was
    given, and no system message is sent for it. *)
Lemma empty_system_prompt_is_dropped :
  calls (snd (generate_response (mocked [] "ok") facade "hi" None (Some "") 0.7 1000 initial))
  = [CallChat (client facade) "gemma3:27b" [mkMessage "user" "hi"]
       (Some (sampling 0.7 1000))] /\
  calls (snd (generate_response (mocked [] "ok") facade "hi" None (Some "") 0.7 1000 initial))
  <> [CallChat (client facade) "gemma3:27b" [mkMessage "system" ""; mkMessage "user" "hi"]
        (Some (sampling 0.7 1000))].
Proof. split; [reflexivity | discriminate]. Qed.

(** C7, amended.  [generate_response] sends one chat request.  Its messages
    are a system message with the system prompt followed by a user message
    with the prompt when a system prompt other than the empty string is
    given, and the user message alone when the system prompt is absent or
    empty.  Its options are the temperature under ['temperature'] and the
    maximal token count under ['num_predict'], the very values of the
    arguments.  The method returns the content of the message of the
    answer. *)
Theorem generate_response_builds_request
    (server : list call -> result pyval) (self : OllamaClient) (st : state)
    (prompt : string) (model system_prompt : option string)
    (temperature : Q) (max_tokens : Z) :
  exists messages,
    let request :=
      CallChat (client self) (py_or model (model_name self)) messages
        (Some [("temperature", VFloat temperature); ("num_predict", VInt max_tokens)]) in
    calls (snd (generate_response server self prompt model system_prompt temperature
                  max_tokens st)) = calls st ++ [request] /\
    (forall s, system_prompt = Some s -> s <> "" ->
       messages = [mkMessage "system" s; mkMessage "user" prompt]) /\
    (system_prompt = None \/ system_prompt = Some "" ->
       messages = [mkMessage "user" prompt]) /\
    (forall d m text,
       server (calls st ++ [request]) = Return (VDict d) ->
       assoc "message" d = Some (VDict m) ->
       assoc "content" m = Some text ->
       fst (generate_response server self prompt model system_prompt temperature
              max_tokens st) = Return text).
Proof.
  exists (build_messages prompt system_prompt). simpl. split; [| split; [| split]].
  - apply generate_response_calls.
  - intros s -> Hs. unfold build_messages.
    destruct (String.eqb_spec s ""); [contradiction | reflexivity].
  - intros [-> | ->]; reflexivity.
  - intros d m text. apply generate_response_answer.
Qed.

Lemma generate_response_builds_request_witness :
  exists messages,
    calls (snd (generate_response (mocked [] "ok") facade "hi" None (Some "be brief") 0.5 100
                  initial))
    = [CallChat (client facade) "gemma3:27b" messages
         (Some [("temperature", VFloat 0.5); ("num_predict", VInt 100)])] /\
    messages = [mkMessage "system" "be brief"; mkMessage "user" "hi"] /\
    fst (generate_response (mocked [] "ok") facade "hi" None (Some "be brief") 0.5 100 initial)
    = Return (VStr "ok").
Proof.
  destruct (generate_response_builds_request (mocked [] "ok") facade initial "hi" None
              (Some "be brief") 0.5 100) as (messages & Hcalls & Hsome & _ & Hanswer).
  exists messages. split; [exact Hcalls | split].
  - apply (Hsome "be brief" eq_refl). discriminate.
  - rewrite (Hsome "be brief" eq_refl) in Hanswer by discriminate.
    exact (Hanswer _ _ _ eq_refl eq_refl eq_refl).
Defined.

(** ** The two fallback models *)

(** Constructing a facade allocates one object, logs one line and returns
    the instance. *)
Lemma OllamaClient_init_run environ h m st :
  let self :=
    mkClient (next_oid st)
      (py_or h (os_getenv environ "OLLAMA_HOST" "http://localhost:11434"))
      (py_or m (os_getenv environ "MODEL_NAME" "gemma3:27b")) in
  OllamaClient_init environ h m st
  = (Return self,
     mkState (calls st)
       (logged st ++ [mkLog INFO [Lit "初始化 Ollama 客戶端: "; FStr (host self);
                                  Lit ", 模型: "; FStr (model_name self)]])
       (S (next_oid st)) (_ollama_client st)).
Proof. reflexivity. Qed.

(** C8. With [MODEL_NAME] unset, a facade constructed without arguments has
    the model ["gemma3:27b"] and sends it with its requests, and
    [simple_chat] called without a model sends ["gemma3:1b"].  The two
    identifiers differ, and the one of [simple_chat] names the smaller model:
    1 billion parameters against 27. *)
Theorem fallback_models_differ
    (environ : gmap string string) (server : list call -> result pyval) (st : state)
    (message prompt : string) :
  environ !! "MODEL_NAME" = None ->
  exists self st1,
    OllamaClient_init environ None None st = (Return self, st1) /\
    model_name self = "gemma3:27b" /\
    calls (snd (generate_simple server self prompt None st1))
    = calls st1 ++ [CallGenerate (client self) "gemma3:27b" prompt] /\
    calls (snd (simple_chat environ server message None st))
    = calls st ++ [CallChat ModuleLevel "gemma3:1b" [mkMessage "user" message] None] /\
    "gemma3:27b" <> "gemma3:1b" /\
    billions "gemma3:27b" = Some 27%N /\
    billions "gemma3:1b" = Some 1%N /\
    (1 < 27)%N.
Proof.
  intros Henv. rewrite OllamaClient_init_run. eexists _, _. split; [reflexivity |].
  assert (Hfacade : os_getenv environ "MODEL_NAME" "gemma3:27b" = "gemma3:27b").
  { unfold os_getenv. rewrite Henv. reflexivity. }
  assert (Hchat : os_getenv environ "MODEL_NAME" "gemma3:1b" = "gemma3:1b").
  { unfold os_getenv. rewrite Henv. reflexivity. }
  simpl. rewrite Hfacade. repeat split.
  - unfold generate_simple. py_unfold. simpl.
    destruct (server _) as [response | e]; simpl.
    + destruct (py_getitem response "response"); [reflexivity | destruct e; reflexivity].
    + destruct e; reflexivity.
  - unfold simple_chat, message_content. py_unfold. rewrite Hchat.
    destruct (server _) as [response | e]; simpl; [| reflexivity].
    destruct (py_getitem response "message") as [m | e]; simpl; [| reflexivity].
    destruct (py_getitem m "content"); reflexivity.
  - discriminate.
Qed.

Lemma fallback_models_differ_witness :
  exists self st1,
    OllamaClient_init host_only None None initial = (Return self, st1) /\
    model_name self = "gemma3:27b" /\
    calls (snd (simple_chat host_only (mocked [] "ok") "hello" None initial))
    = [CallChat ModuleLevel "gemma3:1b" [mkMessage "user" "hello"] None].
Proof.
  assert (Hunset : host_only !! "MODEL_NAME" = None) by reflexivity.
  destruct (fallback_models_differ host_only (mocked [] "ok") initial "hello" "hi" Hunset)
    as (self & st1 & Hinit & Hname & _ & Hchat & _).
  exists self, st1. split; [exact Hinit | split; [exact Hname | exact Hchat]].
Defined.

(** ** The singleton *)

Lemma keeps_global_process_models models acc : keeps_global (process_models models acc).
Proof. intros st. rewrite process_models_map. reflexivity. Qed.

Lemma keeps_global_list_models server self : keeps_global (list_models server self).
Proof.
  unfold list_models. apply keeps_global_try; [| keeps].
  repeat (apply keeps_global_bind; [keeps | intro]).
  apply keeps_global_process_models.
Qed.

Lemma keeps_global_generate_response server self prompt model system_prompt temperature
    max_tokens :
  keeps_global (generate_response server self prompt model system_prompt temperature
                  max_tokens).
Proof. unfold generate_response, message_content. keeps. Qed.

(** No operation but the accessor assigns [_ollama_client]. *)
Lemma perform_keeps_global environ server o st :
  o <> Get_ollama_client ->
  _ollama_client (perform environ server o st) = _ollama_client st.
Proof.
  intros Ho. destruct o; simpl; try contradiction.
  - reflexivity.
  - unfold test_connection. revert st. keeps.
  - apply keeps_global_list_models.
  - apply keeps_global_generate_response.
  - apply keeps_global_generate_response.
  - unfold generate_simple. revert st. keeps.
  - unfold chat_with_history, message_content. revert st. keeps.
  - unfold pull_model_if_needed. revert st.
    apply keeps_global_try; [| keeps].
    apply keeps_global_bind; [apply keeps_global_list_models | intros models].
    keeps.
  - unfold simple_chat, message_content. revert st. keeps.
Qed.

(** The accessor on a module whose global is set: the stored instance, and
    a state that has not changed. *)
Lemma get_ollama_client_stored environ st instance :
  _ollama_client st = Some instance ->
  get_ollama_client environ st = (Return instance, st).
Proof. intros H. unfold get_ollama_client. py_unfold. rewrite H. reflexivity. Qed.

(** The accessor on a module whose global is [None]: one construction,
    stored in the global. *)
Lemma get_ollama_client_first environ st :
  _ollama_client st = None ->
  exists instance st',
    get_ollama_client environ st = (Return instance, st') /\
    OllamaClient_init environ None None st = (Return instance, set_ollama_client None st') /\
    _ollama_client st' = Some instance /\
    next_oid st' = S (next_oid st).
Proof.
  intros H. unfold get_ollama_client. py_unfold. rewrite H.
  eexists _, _. split; [reflexivity |]. simpl.
  destruct st as [c l n g]. simpl in *. subst g. repeat split.
Qed.

Lemma accesses_stored environ server program st instance :
  _ollama_client st = Some instance ->
  Forall (fun a => a = (Return instance, 0)) (accesses environ server program st).
Proof.
  revert st. induction program as [| o rest IH]; intros st Hst; simpl.
  - constructor.
  - destruct o;
      try (apply IH; rewrite perform_keeps_global by discriminate; exact Hst).
    rewrite (get_ollama_client_stored _ _ _ Hst). constructor.
    + rewrite Nat.sub_diag. reflexivity.
    + apply IH. exact Hst.
Qed.

(** C9. In any program over the module, run from any state, all calls of
    [get_ollama_client] return the same instance, and together they
    construct at most one object.  When the global is [None] at the start,
    the first call is the one that constructs it, and no later call
    allocates anything: the instance stored by the first is the one
    returned.  No operation of the module resets the global in between. *)
Theorem get_ollama_client_constructs_once
    (environ : gmap string string) (server : list call -> result pyval)
    (program : list operation) (st : state) :
  (exists instance,
     Forall (fun a => fst a = Return instance) (accesses environ server program st)) /\
  list_sum (map snd (accesses environ server program st)) <= 1 /\
  (_ollama_client st = None ->
   forall first later, accesses environ server program st = first :: later ->
     snd first = 1 /\ Forall (fun a => a = (fst first, 0)) later).
Proof.
  assert (Hsum : forall instance l,
             Forall (fun a : result OllamaClient * nat => a = (Return instance, 0)) l ->
             list_sum (map snd l) = 0).
  { intros instance l Hl. induction Hl as [| a l -> _ IH]; simpl; [reflexivity | exact IH]. }
  revert st. induction program as [| o rest IH]; intros st.
  - simpl. split; [| split].
    + exists (mkClient 0 "" ""). constructor.
    + lia.
    + intros _ first later Heq. discriminate.
  - destruct (_ollama_client st) as [instance |] eqn:Hst.
    + pose proof (accesses_stored environ server (o :: rest) st instance Hst) as Hall.
      split; [| split].
      * exists instance. eapply Forall_impl; [exact Hall |]. intros a ->. reflexivity.
      * rewrite (Hsum _ _ Hall). lia.
      * discriminate.
    + assert (Hother : o <> Get_ollama_client ->
                accesses environ server (o :: rest) st
                = accesses environ server rest (perform environ server o st)).
      { intros Ho. destruct o; try reflexivity. contradiction. }
      destruct o;
        try (rewrite Hother by discriminate;
             match goal with
             | |- context [perform _ _ ?op _] => specialize (IH (perform environ server op st))
             end;
             rewrite perform_keeps_global in IH by discriminate;
             destruct IH as (Hsame & Hle & Hfirst);
             split; [exact Hsame | split; [exact Hle | intros _; exact (Hfirst Hst)]]).
      clear Hother IH.
      destruct (get_ollama_client_first environ st Hst) as (instance & st' & Hget & _ & Hg & Hn).
      pose proof (accesses_stored environ server rest st' instance Hg) as Hall.
      cbn [accesses]. rewrite Hget, Hn.
      replace (S (next_oid st) - next_oid st) with 1 by lia.
      split; [| split].
      * exists instance. constructor; [reflexivity |].
        eapply Forall_impl; [exact Hall |]. intros a ->. reflexivity.
      * simpl. rewrite (Hsum _ _ Hall). lia.
      * intros _ first later Heq. injection Heq as <- <-. split; [reflexivity | exact Hall].
Qed.

Lemma get_ollama_client_constructs_once_witness :
  exists first later,
    accesses ∅ (mocked [] "ok")
      [Get_ollama_client; Simple_chat "hi" None; Construct None None;
       Get_ollama_client; Pull_model_if_needed facade "gemma3:1b"; Get_ollama_client]
      initial = first :: later /\
    first = (Return facade, 1) /\
    later = [(Return facade, 0); (Return facade, 0)].
Proof.
  destruct (get_ollama_client_constructs_once ∅ (mocked [] "ok")
              [Get_ollama_client; Simple_chat "hi" None; Construct None None;
               Get_ollama_client; Pull_model_if_needed facade "gemma3:1b"; Get_ollama_client]
              initial) as (_ & _ & Hfirst).
  eexists _, _. split; [reflexivity |].
  destruct (Hfirst eq_refl _ _ eq_refl) as [Hone Hlater].
  split; [reflexivity |].
  inversion Hlater as [| a l Ha Hl]; subst. inversion Hl as [| b l' Hb Hl']; subst.
  reflexivity.
Defined.

(** ** The import of the smoke-test script *)

(** C10. [simple_generate] is not among the names the facade module
    defines, while the three names before it in the import are.  So line 9
    of the script raises [ImportError] for it, and the run of the script ends
    there: whatever [main] would do, the outcome is that exception and the
    state is the one the import of the module left, with no request sent and
    nothing constructed. *)
Theorem test_ollama_fails_at_import (main : py unit) (st : state) :
  existsb (String.eqb "simple_generate") ollama_client_namespace = false /\
  from_import ollama_client_namespace ["OllamaClient"; "get_ollama_client"; "simple_chat"] st
  = (Return tt, st) /\
  test_ollama main st = (Raise (ImportError "simple_generate"), set_ollama_client None st).
Proof. repeat split. Qed.

(** ** Configuration of a facade *)

(** X1. Arguments that are given and not empty are the configuration: the
    environment is not consulted for them. *)
Theorem explicit_arguments_override_environment
    (environ : gmap string string) (h m : string) (st : state) :
  h <> "" -> m <> "" ->
  exists self st',
    OllamaClient_init environ (Some h) (Some m) st = (Return self, st') /\
    host self = h /\ model_name self = m.
Proof.
  intros Hh Hm. rewrite OllamaClient_init_run. eexists _, _. split; [reflexivity |].
  simpl. destruct (String.eqb_spec h ""), (String.eqb_spec m ""); try contradiction.
  split; reflexivity.
Qed.

Lemma explicit_arguments_override_environment_witness :
  exists self st',
    OllamaClient_init host_only (Some "http://gpu:11434") (Some "llama3:8b") initial
    = (Return self, st') /\
    host self = "http://gpu:11434" /\ model_name self = "llama3:8b".
Proof.
  apply (explicit_arguments_override_environment host_only "http://gpu:11434" "llama3:8b"
           initial); discriminate.
Defined.

(** X2. An argument that is absent or the empty string gives way to the
    environment: the host is [OLLAMA_HOST] and the model [MODEL_NAME]
    whenever the variable is set, even to the empty string, and the built-in
    fallback only when it is unset. *)
Theorem absent_arguments_read_environment
    (environ : gmap string string) (h m : option string) (st : state) :
  h = None \/ h = Some "" ->
  m = None \/ m = Some "" ->
  exists self st',
    OllamaClient_init environ h m st = (Return self, st') /\
    host self = default "http://localhost:11434" (environ !! "OLLAMA_HOST") /\
    model_name self = default "gemma3:27b" (environ !! "MODEL_NAME").
Proof.
  intros Hh Hm. rewrite OllamaClient_init_run. eexists _, _. split; [reflexivity |].
  simpl. destruct Hh as [-> | ->], Hm as [-> | ->]; split; reflexivity.
Qed.

Lemma absent_arguments_read_environment_witness :
  exists self st',
    OllamaClient_init host_only None (Some "") initial = (Return self, st') /\
    host self = "http://10.0.0.5:11434" /\ model_name self = "gemma3:27b".
Proof.
  destruct (absent_arguments_read_environment host_only None (Some "") initial
              (or_introl eq_refl) (or_intror eq_refl)) as (self & st' & Hrun & Hhost & Hmodel).
  exists self, st'. split; [exact Hrun | split; [exact Hhost | exact Hmodel]].
Defined.

(** ** The connection test *)

Lemma test_connection_calls server self st :
  calls (snd (test_connection server self st)) = calls st ++ [CallList (client self)].
Proof.
  unfold test_connection. py_unfold. simpl.
  destruct (server _) as [response | e]; simpl; [| reflexivity].
  destruct (py_get response "models" (VList [])) as [found | e]; simpl; [| reflexivity].
  destruct (py_len found); reflexivity.
Qed.

(** X3. When the answer to the listing is a mapping, the verdict of
    [test_connection] is whether its ['models'] entry, or the empty list in
    the absence of the key, has a length.  So the verdict is [True] when the
    key is missing, and [False] when it holds [None], although the server
    has answered.  The listing is the only request sent. *)
Theorem test_connection_verdict
    (server : list call -> result pyval) (self : OllamaClient) (st : state)
    (d : list (string * pyval)) :
  server (calls st ++ [CallList (client self)]) = Return (VDict d) ->
  calls (snd (test_connection server self st)) = calls st ++ [CallList (client self)] /\
  fst (test_connection server self st)
  = Return (completes (py_len (default (VList []) (assoc "models" d)))) /\
  (assoc "models" d = None -> fst (test_connection server self st) = Return true) /\
  (assoc "models" d = Some VNone -> fst (test_connection server self st) = Return false).
Proof.
  intros Hs.
  assert (Hverdict : fst (test_connection server self st)
                     = Return (completes (py_len (default (VList []) (assoc "models" d))))).
  { unfold test_connection. py_unfold. rewrite Hs. simpl.
    destruct (py_len _); reflexivity. }
  split; [apply test_connection_calls | split; [exact Hverdict | split]].
  - intros Hd. rewrite Hverdict, Hd. reflexivity.
  - intros Hd. rewrite Hverdict, Hd. reflexivity.
Qed.

Lemma test_connection_verdict_witness :
  fst (test_connection (fun _ => Return (VDict [("status", VStr "ok")])) facade initial)
  = Return true /\
  fst (test_connection (fun _ => Return (VDict [("models", VNone)])) facade initial)
  = Return false.
Proof.
  destruct (test_connection_verdict (fun _ => Return (VDict [("status", VStr "ok")])) facade
              initial _ eq_refl) as (_ & _ & Hmissing & _).
  destruct (test_connection_verdict (fun _ => Return (VDict [("models", VNone)])) facade
              initial _ eq_refl) as (_ & _ & _ & Hnull).
  exact (conj (Hmissing eq_refl) (Hnull eq_refl)).
Defined.

(** ** More on the listing *)

Lemma projection_idempotent entry : projection (projection entry) = projection entry.
Proof.
  unfold projection at 2 3. destruct (py_hasattr entry "model") eqn:E.
  - reflexivity.
  - unfold projection. rewrite E. reflexivity.
Qed.

(** X4. An answer that is a mapping without a ['models'] key is an empty
    listing and not an error: [list_models] returns the empty list and hands
    nothing to the logger. *)
Theorem list_models_without_models_key
    (server : list call -> result pyval) (self : OllamaClient) (st : state)
    (d : list (string * pyval)) :
  server (calls st ++ [CallList (client self)]) = Return (VDict d) ->
  assoc "models" d = None ->
  fst (list_models server self st) = Return [] /\
  logged (snd (list_models server self st)) = logged st.
Proof.
  intros Hs Hd. unfold list_models. py_unfold. rewrite Hs. simpl. rewrite Hd.
  split; reflexivity.
Qed.

Lemma list_models_without_models_key_witness :
  fst (list_models (fun _ => Return (VDict [("status", VStr "ok")])) facade initial)
  = Return [] /\
  logged (snd (list_models (fun _ => Return (VDict [("status", VStr "ok")])) facade initial))
  = [].
Proof.
  exact (list_models_without_models_key (fun _ => Return (VDict [("status", VStr "ok")]))
           facade initial _ eq_refl eq_refl).
Defined.

(** X5. What [list_models] returns is in its final shape: a server that
    lists the items of an earlier result gets them back unchanged, one for
    one. *)
Theorem list_models_result_is_stable
    (server server' : list call -> result pyval) (self self' : OllamaClient)
    (st st' : state) (d d' : list (string * pyval)) (entries items : list pyval) :
  server (calls st ++ [CallList (client self)]) = Return (VDict d) ->
  assoc "models" d = Some (VList entries) ->
  fst (list_models server self st) = Return items ->
  server' (calls st' ++ [CallList (client self')]) = Return (VDict d') ->
  assoc "models" d' = Some (VList items) ->
  fst (list_models server' self' st') = Return items /\ length items = length entries.
Proof.
  intros Hs Hd Hitems Hs' Hd'.
  rewrite (list_models_answer _ _ _ _ _ Hs Hd) in Hitems. injection Hitems as <-.
  rewrite (list_models_answer _ _ _ _ _ Hs' Hd').
  split; [| apply length_map].
  f_equal. rewrite map_map. apply map_ext. intros entry. apply projection_idempotent.
Qed.

Lemma list_models_result_is_stable_witness :
  fst (list_models (mocked [named_only (VStr "llama3"); VObj [("name", VStr "phi3")]] "")
         facade initial)
  = Return [named_only (VStr "llama3"); VObj [("name", VStr "phi3")]].
Proof.
  exact (proj1 (list_models_result_is_stable
                  (mocked [VObj [("model", VStr "llama3")]; VObj [("name", VStr "phi3")]] "")
                  (mocked [named_only (VStr "llama3"); VObj [("name", VStr "phi3")]] "")
                  facade facade initial initial _ _ _ _
                  eq_refl eq_refl eq_refl eq_refl eq_refl)).
Defined.

(** X6. When every entry of the listing is a structured object with a
    [model] attribute or a mapping, every item [list_models] returns is a
    mapping, so the comprehension of [pull_model_if_needed] reads a name off
    each of them: the name list exists and has one name per entry. *)
Theorem listed_names_are_readable
    (server : list call -> result pyval) (self : OllamaClient) (st : state)
    (d : list (string * pyval)) (entries : list pyval) :
  server (calls st ++ [CallList (client self)]) = Return (VDict d) ->
  assoc "models" d = Some (VList entries) ->
  Forall (fun entry => py_hasattr entry "model" = true \/ exists m, entry = VDict m) entries ->
  exists items names,
    fst (list_models server self st) = Return items /\
    traverse (fun m => py_get m "name" (VStr "")) items = Return names /\
    length names = length entries.
Proof.
  intros Hs Hd Hshape. exists (map projection entries).
  rewrite (list_models_answer _ _ _ _ _ Hs Hd). clear Hs Hd.
  induction Hshape as [| entry rest Hentry _ (names & _ & Hnames & Hlen)].
  - exists []. repeat split.
  - assert (Hmapping : exists m, projection entry = VDict m).
    { unfold projection. destruct Hentry as [-> | [m ->]]; eauto. }
    destruct Hmapping as [m Hm].
    exists (default (VStr "") (assoc "name" m) :: names). split; [reflexivity |].
    simpl. rewrite Hm. simpl. rewrite Hnames, Hlen. split; reflexivity.
Qed.

Lemma listed_names_are_readable_witness :
  exists items names,
    fst (list_models (mocked [VObj [("model", VStr "llama3")]; VDict [("size", VInt 1)]] "")
           facade initial) = Return items /\
    traverse (fun m => py_get m "name" (VStr "")) items = Return names /\
    length names = 2.
Proof.
  apply (listed_names_are_readable
           (mocked [VObj [("model", VStr "llama3")]; VDict [("size", VInt 1)]] "")
           facade initial _ [VObj [("model", VStr "llama3")]; VDict [("size", VInt 1)]]
           eq_refl eq_refl).
  constructor; [left; reflexivity |].
  constructor; [right; eexists; reflexivity | constructor].
Defined.

(** ** Requests and answers *)

Ltac outcomes :=
  simpl;
  repeat match goal with
         | |- context [match ?x with _ => _ end] =>
             lazymatch x with
             | context [match _ with _ => _ end] => fail
             | _ => destruct x; simpl
             end
         end.

Lemma generate_simple_calls server self prompt model st :
  calls (snd (generate_simple server self prompt model st))
  = calls st ++ [CallGenerate (client self) (py_or model (model_name self)) prompt].
Proof. unfold generate_simple. py_unfold. outcomes; reflexivity. Qed.

Lemma chat_with_history_calls server self messages model temperature st :
  calls (snd (chat_with_history server self messages model temperature st))
  = calls st ++ [chat_request self model messages [("temperature", VFloat temperature)]].
Proof.
  unfold chat_with_history, message_content, chat_request. py_unfold. outcomes; reflexivity.
Qed.

Lemma simple_chat_calls environ server message model st :
  calls (snd (simple_chat environ server message model st))
  = calls st ++ [CallChat ModuleLevel
                   (match model with
                    | Some m => m
                    | None => default "gemma3:1b" (environ !! "MODEL_NAME")
                    end)
                   [mkMessage "user" message] None].
Proof.
  unfold simple_chat, message_content, os_getenv. py_unfold.
  destruct model; outcomes; reflexivity.
Qed.

(** X7. There is no retry: [list_models], [generate_response],
    [generate_simple], [chat_with_history] and [simple_chat] send exactly one
    request per call, whether it returns or raises and whatever the answer
    looks like.  The request of [generate_simple] is a completion with the
    model and the prompt, without messages; the one of [simple_chat] is a
    chat with the single user message and no options. *)
Theorem one_request_per_call
    (environ : gmap string string) (server : list call -> result pyval)
    (self : OllamaClient) (st : state) (prompt message : string)
    (model system_prompt : option string) (temperature : Q) (max_tokens : Z)
    (messages : list Message) :
  calls (snd (list_models server self st)) = calls st ++ [CallList (client self)] /\
  (exists chosen sent options,
     calls (snd (generate_response server self prompt model system_prompt temperature
                   max_tokens st))
     = calls st ++ [CallChat (client self) chosen sent options]) /\
  (exists chosen,
     calls (snd (generate_simple server self prompt model st))
     = calls st ++ [CallGenerate (client self) chosen prompt]) /\
  (exists chosen options,
     calls (snd (chat_with_history server self messages model temperature st))
     = calls st ++ [CallChat (client self) chosen messages options]) /\
  (exists chosen,
     calls (snd (simple_chat environ server message model st))
     = calls st ++ [CallChat ModuleLevel chosen [mkMessage "user" message] None]).
Proof.
  split; [apply list_models_calls |].
  split; [eexists _, _, _; apply generate_response_calls |].
  split; [eexists; apply generate_simple_calls |].
  split; [eexists _, _; apply chat_with_history_calls |].
  eexists. apply simple_chat_calls.
Qed.

(** X8. A model that is given and not empty is the one requested, by each
    of the three generation methods; the model of the instance plays no
    part. *)
Theorem explicit_model_is_requested
    (server : list call -> result pyval) (self : OllamaClient) (st : state)
    (prompt m : string) (system_prompt : option string) (temperature : Q) (max_tokens : Z)
    (messages : list Message) :
  m <> "" ->
  calls (snd (generate_response server self prompt (Some m) system_prompt temperature
                max_tokens st))
  = calls st ++ [CallChat (client self) m (build_messages prompt system_prompt)
                   (Some (sampling temperature max_tokens))] /\
  calls (snd (generate_simple server self prompt (Some m) st))
  = calls st ++ [CallGenerate (client self) m prompt] /\
  calls (snd (chat_with_history server self messages (Some m) temperature st))
  = calls st ++ [CallChat (client self) m messages (Some [("temperature", VFloat temperature)])].
Proof.
  intros Hm.
  rewrite generate_response_calls, generate_simple_calls, chat_with_history_calls.
  unfold chat_request. simpl. destruct (String.eqb_spec m ""); [contradiction |].
  repeat split.
Qed.

Lemma explicit_model_is_requested_witness :
  calls (snd (generate_simple unreachable facade "hi" (Some "llama3:8b") initial))
  = [CallGenerate (client facade) "llama3:8b" "hi"].
Proof.
  refine (proj1 (proj2 (explicit_model_is_requested unreachable facade initial "hi"
                          "llama3:8b" None 0.7 1000 conversation _))).
  discriminate.
Defined.

(** X9. A model that is absent or the empty string is replaced by the model
    of the instance, by each of the three generation methods. *)
Theorem empty_model_falls_back_to_instance
    (server : list call -> result pyval) (self : OllamaClient) (st : state)
    (prompt : string) (model system_prompt : option string) (temperature : Q)
    (max_tokens : Z) (messages : list Message) :
  model = None \/ model = Some "" ->
  calls (snd (generate_response server self prompt model system_prompt temperature
                max_tokens st))
  = calls st ++ [CallChat (client self) (model_name self)
                   (build_messages prompt system_prompt)
                   (Some (sampling temperature max_tokens))] /\
  calls (snd (generate_simple server self prompt model st))
  = calls st ++ [CallGenerate (client self) (model_name self) prompt] /\
  calls (snd (chat_with_history server self messages model temperature st))
  = calls st ++ [CallChat (client self) (model_name self) messages
                   (Some [("temperature", VFloat temperature)])].
Proof.
  intros Hmodel.
  rewrite generate_response_calls, generate_simple_calls, chat_with_history_calls.
  destruct Hmodel as [-> | ->]; repeat split.
Qed.

Lemma empty_model_falls_back_to_instance_witness :
  calls (snd (generate_simple unreachable facade "hi" (Some "") initial))
  = [CallGenerate (client facade) "gemma3:27b" "hi"].
Proof.
  exact (proj1 (proj2 (empty_model_falls_back_to_instance unreachable facade initial "hi"
                         (Some "") None 0.7 1000 conversation (or_intror eq_refl)))).
Defined.

(** X10. [simple_chat] tests its model against [None] only: a model that is
    given is requested as it is, the empty string included, and the
    environment is read only when none is given, [MODEL_NAME] if it is set
    and ["gemma3:1b"] otherwise. *)
Theorem simple_chat_model_selection
    (environ : gmap string string) (server : list call -> result pyval) (st : state)
    (message m : string) :
  calls (snd (simple_chat environ server message (Some m) st))
  = calls st ++ [CallChat ModuleLevel m [mkMessage "user" message] None] /\
  calls (snd (simple_chat environ server message (Some "") st))
  = calls st ++ [CallChat ModuleLevel "" [mkMessage "user" message] None] /\
  calls (snd (simple_chat environ server message None st))
  = calls st ++ [CallChat ModuleLevel (default "gemma3:1b" (environ !! "MODEL_NAME"))
                   [mkMessage "user" message] None].
Proof. rewrite !simple_chat_calls. repeat split. Qed.

(** X11. An answer without the expected key is handled like a failed
    request.  Against a server whose answers are a mapping with neither a
    ['message'] nor a ['response'] key, the three chat functions and
    [generate_simple] return [None], and each logs one error record that
    carries the [KeyError] of the missing key. *)
Theorem answer_without_key_is_a_failure
    (environ : gmap string string) (server : list call -> result pyval)
    (self : OllamaClient) (st : state) (d : list (string * pyval))
    (prompt : string) (model system_prompt : option string) (temperature : Q)
    (max_tokens : Z) (messages : list Message) :
  (forall history, server history = Return (VDict d)) ->
  assoc "message" d = None ->
  assoc "response" d = None ->
  let chat := generate_response server self prompt model system_prompt temperature
                max_tokens st in
  let completion := generate_simple server self prompt model st in
  let history := chat_with_history server self messages model temperature st in
  let simple := simple_chat environ server prompt model st in
  (fst chat = Return VNone /\
   logged (snd chat) = logged st ++ [mkLog ERROR [Lit "生成回應失敗: "; FExn (KeyError "message")]]) /\
  (fst completion = Return VNone /\
   logged (snd completion)
   = logged st ++ [mkLog ERROR [Lit "生成回應失敗: "; FExn (KeyError "response")]]) /\
  (fst history = Return VNone /\
   logged (snd history)
   = logged st ++ [mkLog ERROR [Lit "對話生成失敗: "; FExn (KeyError "message")]]) /\
  (fst simple = Return VNone /\
   logged (snd simple) = logged st ++ [mkLog ERROR [Lit "簡單對話失敗: "; FExn (KeyError "message")]]).
Proof.
  intros Hs Hm Hr. cbv zeta.
  unfold generate_response, generate_simple, chat_with_history, simple_chat, message_content.
  py_unfold. rewrite !Hs. simpl. rewrite Hm, Hr. simpl. repeat split.
Qed.

Lemma answer_without_key_is_a_failure_witness :
  fst (generate_response (fun _ => Return (VDict [("done", VBool true)])) facade "hi" None None
         0.7 1000 initial) = Return VNone /\
  logged (snd (generate_response (fun _ => Return (VDict [("done", VBool true)])) facade "hi"
                 None None 0.7 1000 initial))
  = [mkLog ERROR [Lit "生成回應失敗: "; FExn (KeyError "message")]].
Proof.
  exact (proj1 (answer_without_key_is_a_failure ∅
                  (fun _ => Return (VDict [("done", VBool true)])) facade initial
                  [("done", VBool true)] "hi" None None 0.7 1000 conversation
                  (fun _ => eq_refl) eq_refl eq_refl)).
Defined.

(** X12. [generate_simple] returns what the answer holds under
    ['response'], and logs nothing when it does. *)
Theorem generate_simple_returns_response
    (server : list call -> result pyval) (self : OllamaClient) (st : state)
    (prompt : string) (model : option string) (d : list (string * pyval)) (text : pyval) :
  server (calls st ++ [CallGenerate (client self) (py_or model (model_name self)) prompt])
  = Return (VDict d) ->
  assoc "response" d = Some text ->
  fst (generate_simple server self prompt model st) = Return text /\
  logged (snd (generate_simple server self prompt model st)) = logged st.
Proof.
  intros Hs Hd. unfold generate_simple. py_unfold. rewrite Hs. simpl. rewrite Hd.
  split; reflexivity.
Qed.

Lemma generate_simple_returns_response_witness :
  fst (generate_simple (mocked [] "Taipei") facade "capital?" None initial)
  = Return (VStr "Taipei") /\
  logged (snd (generate_simple (mocked [] "Taipei") facade "capital?" None initial)) = [].
Proof.
  exact (generate_simple_returns_response (mocked [] "Taipei") facade initial "capital?"
           None _ _ eq_refl eq_refl).
Defined.

(** X13. The functions that are silent on success log at most one record
    per call.  For [list_models], [generate_response], [generate_simple],
    [chat_with_history] and [simple_chat], either the log is left as it was,
    or one record of error severity has been added to it and the value
    returned is the sentinel. *)
Theorem errors_are_logged_once
    (environ : gmap string string) (server : list call -> result pyval)
    (self : OllamaClient) (st : state) (prompt : string)
    (model system_prompt : option string) (temperature : Q) (max_tokens : Z)
    (messages : list Message) :
  logged_once st [] (list_models server self st) /\
  logged_once st VNone (generate_response server self prompt model system_prompt temperature
                          max_tokens st) /\
  logged_once st VNone (generate_simple server self prompt model st) /\
  logged_once st VNone (chat_with_history server self messages model temperature st) /\
  logged_once st VNone (simple_chat environ server prompt model st).
Proof.
  unfold logged_once. repeat split.
  - unfold list_models. py_unfold. simpl.
    destruct (server _) as [response | e]; simpl; [| right; eexists; split; reflexivity].
    destruct (py_get response "models" (VList [])) as [models | e]; simpl;
      [| right; eexists; split; reflexivity].
    destruct (py_iter models) as [entries | e]; simpl;
      [| right; eexists; split; reflexivity].
    rewrite process_models_map. left. reflexivity.
  - unfold generate_response, message_content. py_unfold.
    outcomes; (left; reflexivity) || (right; eexists; split; reflexivity).
  - unfold generate_simple. py_unfold.
    outcomes; (left; reflexivity) || (right; eexists; split; reflexivity).
  - unfold chat_with_history, message_content. py_unfold.
    outcomes; (left; reflexivity) || (right; eexists; split; reflexivity).
  - unfold simple_chat, message_content. py_unfold.
    outcomes; (left; reflexivity) || (right; eexists; split; reflexivity).
Qed.

(** ** More on pulling *)

(** X14. When an item of the listing has no [get], as an object that
    [list_models] passed through has not, [pull_model_if_needed] cannot read
    the names: it returns [False] and the listing is the only request it
    sends.  The model is not pulled, present or not. *)
Theorem pull_model_if_needed_needs_mappings
    (server : list call -> result pyval) (self : OllamaClient) (st : state)
    (model : string) (models : list pyval) (st1 : state) (e : exn) :
  list_models server self st = (Return models, st1) ->
  traverse (fun m => py_get m "name" (VStr "")) models = Raise e ->
  fst (pull_model_if_needed server self model st) = Return false /\
  calls (snd (pull_model_if_needed server self model st))
  = calls st ++ [CallList (client self)].
Proof.
  intros Hlist Hnames.
  destruct (pull_model_if_needed_cases server self model st) as (models' & st1' & Hl & Hcases).
  rewrite Hlist in Hl. injection Hl as <- <-. rewrite Hnames in Hcases. exact Hcases.
Qed.

Lemma pull_model_if_needed_needs_mappings_witness :
  fst (pull_model_if_needed (mocked [VObj [("name", VStr "gemma3:1b")]] "") facade
         "gemma3:1b" initial) = Return false /\
  calls (snd (pull_model_if_needed (mocked [VObj [("name", VStr "gemma3:1b")]] "") facade
                "gemma3:1b" initial)) = [CallList (client facade)].
Proof.
  exact (pull_model_if_needed_needs_mappings (mocked [VObj [("name", VStr "gemma3:1b")]] "")
           facade initial "gemma3:1b" _ _ (AttributeError "get") eq_refl eq_refl).
Defined.

Lemma pull_model_if_needed_after_failed_listing_witness :
  calls (snd (pull_model_if_needed unreachable facade "gemma3:1b" initial))
  = [CallList (client facade); CallPull (client facade) "gemma3:1b"] /\
  fst (pull_model_if_needed unreachable facade "gemma3:1b" initial) = Return false.
Proof.
  exact (pull_model_if_needed_after_failed_listing unreachable facade "gemma3:1b" initial
           _ eq_refl).
Defined.

(** ** Who carries the requests *)

Lemma pull_model_if_needed_calls server self model st :
  calls (snd (pull_model_if_needed server self model st)) = calls st ++ [CallList (client self)]
  \/ calls (snd (pull_model_if_needed server self model st))
     = calls st ++ [CallList (client self); CallPull (client self) model].
Proof.
  destruct (pull_model_if_needed_cases server self model st) as (models & st1 & _ & Hcases).
  rewrite <- app_assoc in Hcases. simpl in Hcases.
  destruct (traverse _ models) as [names | e]; [| left; apply Hcases].
  destruct (py_in model names); [left | right]; apply Hcases.
Qed.

(** X16. The history of requests only grows, and who carries the new ones
    is fixed by the function.  Every request of a facade method goes through
    the client of its own instance, bound to the host of the instance;
    every request of [simple_chat] goes through the [ollama] module and so
    past any configured host; constructing a facade and fetching the
    singleton send nothing. *)
Theorem requests_go_through_own_client
    (environ : gmap string string) (server : list call -> result pyval)
    (self : OllamaClient) (prompt personality_prompt name message : string)
    (model system_prompt h m : option string) (temperature : Q) (max_tokens : Z)
    (messages : list Message) :
  let own := fun c => via c = ClientAt (host self) in
  sends_only own (test_connection server self) /\
  sends_only own (list_models server self) /\
  sends_only own (generate_response server self prompt model system_prompt temperature
                    max_tokens) /\
  sends_only own (generate_with_personality server self prompt personality_prompt model) /\
  sends_only own (generate_simple server self prompt model) /\
  sends_only own (chat_with_history server self messages model temperature) /\
  sends_only own (pull_model_if_needed server self name) /\
  sends_only (fun c => via c = ModuleLevel) (simple_chat environ server message model) /\
  sends_only (fun _ => False) (OllamaClient_init environ h m) /\
  sends_only (fun _ => False) (get_ollama_client environ).
Proof.
  cbv zeta. unfold sends_only.
  repeat match goal with |- _ /\ _ => split end; intros st.
  - eexists. split; [apply test_connection_calls | repeat constructor].
  - eexists. split; [apply list_models_calls | repeat constructor].
  - eexists. split; [apply generate_response_calls | repeat constructor].
  - eexists. split; [apply generate_response_calls | repeat constructor].
  - eexists. split; [apply generate_simple_calls | repeat constructor].
  - eexists. split; [apply chat_with_history_calls | repeat constructor].
  - destruct (pull_model_if_needed_calls server self name st) as [H | H];
      eexists; (split; [exact H | repeat constructor]).
  - eexists. split; [apply simple_chat_calls | repeat constructor].
  - exists []. rewrite OllamaClient_init_run. simpl. rewrite app_nil_r. split; constructor.
  - exists []. rewrite app_nil_r. split; [| constructor].
    unfold get_ollama_client. py_unfold. destruct (_ollama_client st); reflexivity.
Qed.

(** X17. The singleton is configured by the environment and by nothing
    else.  The first access, on a global that is [None], returns an instance
    whose host is [OLLAMA_HOST] and whose model is [MODEL_NAME], each with its
    fallback when unset, stores it, and logs the line of the constructor. *)
Theorem singleton_is_configured_by_environment
    (environ : gmap string string) (st : state) :
  _ollama_client st = None ->
  exists instance st',
    get_ollama_client environ st = (Return instance, st') /\
    host instance = default "http://localhost:11434" (environ !! "OLLAMA_HOST") /\
    model_name instance = default "gemma3:27b" (environ !! "MODEL_NAME") /\
    _ollama_client st' = Some instance /\
    logged st' = logged st ++ [mkLog INFO [Lit "初始化 Ollama 客戶端: "; FStr (host instance);
                                           Lit ", 模型: "; FStr (model_name instance)]].
Proof.
  intros Hnone. unfold get_ollama_client. py_unfold. rewrite Hnone.
  eexists _, _. split; [reflexivity |]. simpl. repeat split.
Qed.

Lemma singleton_is_configured_by_environment_witness :
  exists instance st',
    get_ollama_client host_only initial = (Return instance, st') /\
    host instance = "http://10.0.0.5:11434" /\
    model_name instance = "gemma3:27b".
Proof.
  destruct (singleton_is_configured_by_environment host_only initial eq_refl)
    as (instance & st' & Hget & Hhost & Hmodel & _).
  exists instance, st'. split; [exact Hget | split; [exact Hhost | exact Hmodel]].
Defined.

(** ** The runner of the checks *)

Lemma failing_raises server :
  failing server -> forall history, exists e, server history = Raise e.
Proof.
  intros Hf history. specialize (Hf history).
  destruct (server history) as [v | e]; [discriminate | eauto].
Qed.

Lemma run_tests_verdicts tests results st :
  exists verdicts st',
    run_tests tests results st = (Return (results ++ verdicts), st') /\
    map fst verdicts = map fst tests /\
    success_count verdicts <= length tests.
Proof.
  revert results st. induction tests as [| [test_name test_func] rest IH]; intros results st.
  - exists [], st. simpl. rewrite app_nil_r. repeat split. unfold success_count. simpl. lia.
  - simpl. py_unfold.
    destruct (test_func st) as [[passed | e] st1]; simpl.
    + destruct (IH (results ++ [(test_name, passed)]) st1) as (verdicts & st' & Hrun & Hn & Hc).
      exists ((test_name, passed) :: verdicts), st'. rewrite Hrun, <- app_assoc.
      split; [reflexivity | split; [simpl; f_equal; exact Hn |]].
      unfold success_count in *. simpl. destruct passed; lia.
    + destruct (IH (results ++ [(test_name, false)]) st1) as (verdicts & st' & Hrun & Hn & Hc).
      exists ((test_name, false) :: verdicts), st'. rewrite Hrun, <- app_assoc.
      split; [reflexivity | split; [simpl; f_equal; exact Hn |]].
      unfold success_count in *. simpl. lia.
Qed.

(** X18. A check that raises does not stop the run.  Whatever the checks
    do, the loop of [main()] returns with one verdict per check, under the
    names of the checks and in their order, added after the verdicts it
    started with; the count of successes is at most the number of checks, and
    [main()] itself returns. *)
Theorem every_check_is_reported
    (environ : gmap string string) (server : list call -> result pyval)
    (checks : list (string * py bool)) (results : list (string * bool))
    (test_model_availability : py bool) (st : state) :
  (exists verdicts st',
     run_tests checks results st = (Return (results ++ verdicts), st') /\
     map fst verdicts = map fst checks /\
     success_count verdicts <= length checks) /\
  returns (main environ server test_model_availability) st.
Proof.
  split; [apply run_tests_verdicts |].
  unfold returns, main. py_unfold.
  destruct (run_tests_verdicts (tests environ server test_model_availability) [] st)
    as (verdicts & st' & Hrun & _).
  rewrite Hrun. eexists. reflexivity.
Qed.

(** X19. Without a server every check fails quietly: when no request
    completes, [test_basic_connection], [test_simple_functions],
    [test_client_generation], [test_personality_generation] and
    [test_chat_history] all return [False], none of them raises. *)
Theorem checks_fail_without_server
    (environ : gmap string string) (server : list call -> result pyval) (st : state) :
  failing server ->
  fst (test_basic_connection environ server st) = Return false /\
  fst (test_simple_functions environ server st) = Return false /\
  fst (test_client_generation environ server st) = Return false /\
  fst (test_personality_generation environ server st) = Return false /\
  fst (test_chat_history environ server st) = Return false.
Proof.
  intros Hf. repeat split.
  - unfold test_basic_connection, test_connection. py_unfold. simpl.
    match goal with |- context [server ?h] => destruct (failing_raises server Hf h) as [e ->] end.
    reflexivity.
  - unfold test_simple_functions, simple_chat, message_content. py_unfold. simpl.
    match goal with |- context [server ?h] => destruct (failing_raises server Hf h) as [e ->] end.
    reflexivity.
  - unfold test_client_generation, get_ollama_client, generate_response, message_content.
    py_unfold. destruct (_ollama_client st); simpl;
      match goal with |- context [server ?h] => destruct (failing_raises server Hf h) as [e ->] end;
      destruct e; reflexivity.
  - unfold test_personality_generation, get_ollama_client, generate_with_personality,
      generate_response, message_content.
    py_unfold. destruct (_ollama_client st); simpl;
      match goal with |- context [server ?h] => destruct (failing_raises server Hf h) as [e ->] end;
      destruct e; reflexivity.
  - unfold test_chat_history, get_ollama_client, chat_with_history, message_content.
    py_unfold. destruct (_ollama_client st); simpl;
      match goal with |- context [server ?h] => destruct (failing_raises server Hf h) as [e ->] end;
      destruct e; reflexivity.
Qed.

Lemma checks_fail_without_server_witness :
  fst (test_basic_connection ∅ unreachable initial) = Return false /\
  fst (test_simple_functions ∅ unreachable initial) = Return false /\
  fst (test_client_generation ∅ unreachable initial) = Return false /\
  fst (test_personality_generation ∅ unreachable initial) = Return false /\
  fst (test_chat_history ∅ unreachable initial) = Return false.
Proof.
  apply (checks_fail_without_server ∅ unreachable initial). intros history. reflexivity.
Defined.

Lemma print_model_raises dd size st :
  assoc "size" dd = Some size ->
  number size = None ->
  print_model (VDict dd) st = (Raise (TypeError ">"), st).
Proof.
  intros Hsize Hnumber. unfold print_model, py_gt, py_get. py_unfold.
  rewrite Hsize. simpl. rewrite Hnumber. reflexivity.
Qed.

(** X20. A listed model whose size is not a number breaks
    [test_basic_connection] after the connection has been found good: the
    comparison [size > 1e9] raises [TypeError], the check does not return,
    and the loop of [main()] records it as failed. *)
Theorem unknown_size_breaks_basic_connection
    (environ : gmap string string) (server : list call -> result pyval) (st : state)
    (d attrs : list (string * pyval)) (rest : list pyval) (name size : pyval) :
  (forall history, server history = Return (VDict d)) ->
  assoc "models" d = Some (VList (VObj attrs :: rest)) ->
  assoc "model" attrs = Some name ->
  assoc "size" attrs = Some size ->
  number size = None ->
  fst (test_basic_connection environ server st) = Raise (TypeError ">") /\
  fst (run_tests [("基本連接", test_basic_connection environ server)] [] st)
  = Return [("基本連接", false)].
Proof.
  intros Hs Hd Hname Hsize Hnumber.
  assert (Hcheck : fst (test_basic_connection environ server st) = Raise (TypeError ">")).
  { unfold test_basic_connection, test_connection, list_models. py_unfold.
    simpl. rewrite !Hs. simpl. rewrite Hd. simpl. rewrite !Hs. simpl. rewrite Hd. simpl.
    unfold processed. py_unfold. simpl. rewrite Hname.
    rewrite process_models_map. simpl. rewrite Hsize. simpl.
    py_unfold. rewrite (print_model_raises _ size) by (simpl; auto).
    reflexivity. }
  split; [exact Hcheck |].
  simpl. py_unfold.
  destruct (test_basic_connection environ server st) as [[passed | e] st1];
    [discriminate | reflexivity].
Qed.

Lemma unknown_size_breaks_basic_connection_witness :
  fst (test_basic_connection ∅ sizeless initial) = Raise (TypeError ">") /\
  fst (run_tests [("基本連接", test_basic_connection ∅ sizeless)] [] initial)
  = Return [("基本連接", false)].
Proof.
  exact (unknown_size_breaks_basic_connection ∅ sizeless initial _ _ [] (VStr "gemma3:1b")
           VNone (fun _ => eq_refl) eq_refl eq_refl eq_refl eq_refl).
Defined.

(** X21. The verdict of a generation check is the truth value of the
    reply.  Against a server whose chat answers are well formed with the
    content [text], [test_client_generation], [test_personality_generation]
    and [test_chat_history] return [bool(text)]: an empty reply fails the
    check although the request went well.  [test_simple_functions] does the
    same for a falsy reply. *)
Theorem check_verdict_is_truth_of_reply
    (environ : gmap string string) (server : list call -> result pyval) (st : state)
    (d m : list (string * pyval)) (text : pyval) :
  (forall history, server history = Return (VDict d)) ->
  assoc "message" d = Some (VDict m) ->
  assoc "content" m = Some text ->
  fst (test_client_generation environ server st) = Return (py_bool text) /\
  fst (test_personality_generation environ server st) = Return (py_bool text) /\
  fst (test_chat_history environ server st) = Return (py_bool text) /\
  (py_bool text = false -> fst (test_simple_functions environ server st) = Return false).
Proof.
  intros Hs Hd Hm. repeat split.
  - unfold test_client_generation, get_ollama_client, generate_response, message_content.
    py_unfold. destruct (_ollama_client st); simpl; rewrite Hs; simpl; rewrite Hd; simpl;
      rewrite Hm; simpl; destruct (py_bool text); reflexivity.
  - unfold test_personality_generation, get_ollama_client, generate_with_personality,
      generate_response, message_content.
    py_unfold. destruct (_ollama_client st); simpl; rewrite Hs; simpl; rewrite Hd; simpl;
      rewrite Hm; simpl; destruct (py_bool text); reflexivity.
  - unfold test_chat_history, get_ollama_client, chat_with_history, message_content.
    py_unfold. destruct (_ollama_client st); simpl; rewrite Hs; simpl; rewrite Hd; simpl;
      rewrite Hm; simpl; destruct (py_bool text); reflexivity.
  - intros Hfalsy.
    unfold test_simple_functions, simple_chat, message_content.
    py_unfold. simpl. rewrite Hs. simpl. rewrite Hd. simpl. rewrite Hm. simpl.
    rewrite Hfalsy. reflexivity.
Qed.

Lemma check_verdict_is_truth_of_reply_witness :
  fst (test_client_generation ∅ speechless initial) = Return false /\
  fst (test_personality_generation ∅ speechless initial) = Return false /\
  fst (test_chat_history ∅ speechless initial) = Return false /\
  fst (test_simple_functions ∅ speechless initial) = Return false.
Proof.
  destruct (check_verdict_is_truth_of_reply ∅ speechless initial _ _ (VStr "")
              (fun _ => eq_refl) eq_refl eq_refl) as (Hgen & Hpers & Hchat & Hsimple).
  exact (conj Hgen (conj Hpers (conj Hchat (Hsimple eq_refl)))).
Defined.

(** ** The convenience function *)

(** X22. No exception leaves [simple_chat] either.  It returns from every
    state against every server; when its request raises it returns [None] and
    logs the exception at error severity; when the answer is well formed it
    returns the content of the message. *)
Theorem simple_chat_never_raises
    (environ : gmap string string) (server : list call -> result pyval) (st : state)
    (message : string) (model : option string) :
  let request :=
    CallChat ModuleLevel
      (match model with
       | Some m => m
       | None => default "gemma3:1b" (environ !! "MODEL_NAME")
       end)
      [mkMessage "user" message] None in
  returns (simple_chat environ server message model) st /\
  (forall e,
     server (calls st ++ [request]) = Raise e ->
     fst (simple_chat environ server message model st) = Return VNone /\
     logged (snd (simple_chat environ server message model st))
     = logged st ++ [mkLog ERROR [Lit "簡單對話失敗: "; FExn e]]) /\
  (forall d m text,
     server (calls st ++ [request]) = Return (VDict d) ->
     assoc "message" d = Some (VDict m) ->
     assoc "content" m = Some text ->
     fst (simple_chat environ server message model st) = Return text).
Proof.
  cbv zeta. split; [| split].
  - apply try_except_returns. intros e st'. eexists. reflexivity.
  - intros e He. unfold simple_chat, message_content, os_getenv. py_unfold.
    destruct model; simpl in *; rewrite He; split; reflexivity.
  - intros d m text Hs Hd Hm. unfold simple_chat, message_content, os_getenv. py_unfold.
    destruct model; simpl in *; rewrite Hs; simpl; rewrite Hd; simpl; rewrite Hm; reflexivity.
Qed.

Lemma simple_chat_never_raises_witness :
  (fst (simple_chat ∅ unreachable "hello" None initial) = Return VNone /\
   logged (snd (simple_chat ∅ unreachable "hello" None initial))
   = [mkLog ERROR [Lit "簡單對話失敗: ";
                   FExn (OtherException "ConnectionError" "Failed to connect to Ollama")]]) /\
  fst (simple_chat ∅ (mocked [] "hi there") "hello" (Some "llama3:8b") initial)
  = Return (VStr "hi there").
Proof.
  destruct (simple_chat_never_raises ∅ unreachable initial "hello" None) as (_ & Hraise & _).
  destruct (simple_chat_never_raises ∅ (mocked [] "hi there") initial "hello"
              (Some "llama3:8b")) as (_ & _ & Hanswer).
  exact (conj (Hraise _ eq_refl) (Hanswer _ _ _ eq_refl eq_refl eq_refl)).
Defined.
